(** * fyne-cross: container-engine resolution and the FreeBSD builder

    A shallow embedding of two files of the [command] package:
    the engine resolver ([MakeEngine]) and the FreeBSD platform builder
    ([freeBSD.Build], [freeBSD.setupContainerImages]).

    Go strings are byte sequences and are embedded as [string]; a Go map
    from strings to strings is a [gmap string string]; a Go [error] value
    is [option error] with [None] for [nil]; a function returning
    [(T, error)] returns the pair, as the code does. *)

From Stdlib Require Import Ascii String.
From stdpp Require Import base gmap strings list.

(** ** Go library functions used by the package *)

(** The dynamic values an [error] interface can hold. [errors.New] and
    [fmt.Errorf] with no [%w] verb both build an [*errors.errorString];
    every other error value is kept with the name of its type and the text
    of its [Error()] method. *)
Inductive error : Type :=
| errorString (s : string)
| otherError (type_name : string) (text : string).

Definition Error (e : error) : string :=
  match e with
  | errorString s => s
  | otherError _ text => text
  end.

(** [errors.New(text)]. *)
Definition errors_New (text : string) : error := errorString text.

(** [fmt.Errorf(format, a)] for the formats of this package, one trailing
    [%s] or [%v] verb (or none): [prefix] is the format's text, [arg] its
    argument as printed. *)
Definition Errorf (prefix arg : string) : error := errors_New (prefix +:+ arg).

#[global] Instance error_eq_dec : EqDecision error.
Proof. solve_decision. Defined.

(** [strings.HasPrefix(s, prefix)]. *)
Fixpoint HasPrefix (s prefix : string) {struct prefix} : bool :=
  match prefix, s with
  | EmptyString, _ => true
  | String _ _, EmptyString => false
  | String p prefix', String c s' =>
      if Ascii.eqb p c then HasPrefix s' prefix' else false
  end.

(** [strings.Contains(s, substr)]: [substr] occurs in [s] at some offset. *)
Fixpoint Contains (s substr : string) : bool :=
  HasPrefix s substr ||
  match s with
  | EmptyString => false
  | String _ s' => Contains s' substr
  end.

(** [strings.ToLower] restricted to the ASCII letters: bytes [A]..[Z] are
    mapped to [a]..[z], every other byte is kept. On a string of ASCII
    bytes this is what the library function returns. *)
Definition lower_byte (c : ascii) : ascii :=
  let n := nat_of_ascii c in
  if (65 <=? n)%nat && (n <=? 90)%nat then ascii_of_nat (n + 32) else c.

Fixpoint ToLowerASCII (s : string) : string :=
  match s with
  | EmptyString => EmptyString
  | String c s' => String (lower_byte c) (ToLowerASCII s')
  end.

(** ** Engine (engine resolver) *)

Module engine.

Definition autodetectEngine : string := "".
Definition dockerEngine : string := "docker".
Definition podmanEngine : string := "podman".
Definition kubernetesEngine : string := "kubernetes".

Record Engine : Type := mkEngine { Name : string; Binary : string }.

(** The zero value [Engine{}]. *)
Definition zero : Engine := {| Name := ""; Binary := "" |}.

Definition String_ (e : Engine) : string := Name e.
Definition IsDocker (e : Engine) : bool := String.eqb (Name e) dockerEngine.
Definition IsPodman (e : Engine) : bool := String.eqb (Name e) podmanEngine.
Definition IsKubernetes (e : Engine) : bool := String.eqb (Name e) kubernetesEngine.

Section resolver.

(** What [MakeEngine] reads from the host. Each call of [MakeEngine]
    performs at most one of these operations, so each is a function of
    its arguments. *)

(** [execabs.LookPath(file)]. *)
Variable LookPath : string -> string * option error.
(** [execabs.Command(name, arg...).Output()]: standard output and error. *)
Variable Output : string -> list string -> string * option error.
(** [strings.ToLower]. *)
Variable ToLower : string -> string.
(** [checkKubernetesClient()], declared in another file of the package. *)
Variable checkKubernetesClient : option error.

Definition MakeEngine (e : string) : Engine * option error :=
  if String.eqb e dockerEngine then
    let '(binaryPath, err) := LookPath dockerEngine in
    match err with
    | Some _ => (zero, Some (Errorf "docker binary not found in PATH" ""))
    | None => ({| Name := dockerEngine; Binary := binaryPath |}, None)
    end
  else if String.eqb e podmanEngine then
    let '(binaryPath, err) := LookPath podmanEngine in
    match err with
    | Some _ => (zero, Some (Errorf "podman binary not found in PATH" ""))
    | None => ({| Name := podmanEngine; Binary := binaryPath |}, None)
    end
  else if String.eqb e "" then
    let binaryPath := "/usr/bin/docker" in
    let '(out, err) := Output binaryPath ["--version"] in
    match err with
    | Some _ => (zero, Some (Errorf "could not detect engine version: " out))
    | None =>
        let lout := ToLower out in
        if Contains lout dockerEngine then
          ({| Name := dockerEngine; Binary := binaryPath |}, None)
        else if Contains lout podmanEngine then
          ({| Name := podmanEngine; Binary := binaryPath |}, None)
        else
          (zero, Some (Errorf "could not detect engine version: " out))
    end
  else if String.eqb e kubernetesEngine then
    match checkKubernetesClient with
    | Some err => (zero, Some err)
    | None => ({| Name := kubernetesEngine; Binary := "" |}, None)
    end
  else
    (zero, Some (errors_New "unsupported container engine")).

End resolver.

End engine.

(** ** The FreeBSD platform builder *)

Module freebsd.

(** Modelled from the spec: the [Architecture] type and its constants are
    declared in another file of the package; the spec has it as a closed
    enumeration (amd64, arm64, ...). The code converts it with
    [string(ArchArm64)] and compares it with [runtime.GOARCH], so it is a
    string type whose constants are Go's architecture names. *)
Definition Architecture : Type := string.
Definition ArchAmd64 : Architecture := "amd64".
Definition ArchArm64 : Architecture := "arm64".

Definition freebsdOS : string := "freebsd".
Definition freebsdImageAmd64 : string := "fyneio/fyne-cross-images:freebsd-amd64".
Definition freebsdImageArm64 : string := "fyneio/fyne-cross-images:freebsd-arm64".
Definition freebsdArchSupported : list Architecture := [ArchAmd64; ArchArm64].

(** Modelled from the spec: [volume.JoinPathContainer] is declared in the
    [volume] package, outside the two files embedded here; the spec has it
    as pure string-joining for container-side paths. The elements are
    joined with the container's separator. *)
Definition JoinPathContainer (elem : list string) : string :=
  String.concat "/" elem.

(** Modelled from the spec: [volume.Volume] carries the container-side path
    roots (work dir, temp dir, output/bin dir) that its methods
    [WorkDirContainer()], [TmpDirContainer()] and [BinDirContainer()] return. *)
Record Volume : Type := mkVolume {
  WorkDirContainer : string;
  TmpDirContainer : string;
  BinDirContainer : string
}.

(** The fields of [Context] that the builder reads: the embedded volume,
    the application name, the release flag and the environment overrides. *)
Record Context : Type := mkContext {
  Volume_ : Volume;
  Name : string;
  Release : bool;
  Env : gmap string string
}.

(** The fields of [options] that the builder sets. *)
Record options : Type := mkOptions { WorkDir : string }.

(** The zero value [options{}]. *)
Definition no_options : options := {| WorkDir := "" |}.

(** Modelled from the spec: the [containerImage] interface is implemented in
    another file of the package. A ContainerImage has a target OS tag, an
    architecture, an image reference, a mapping from environment-variable
    names to values and an identity token. *)
Record containerImage : Type := mkImage {
  image_os : string;
  image_arch : Architecture;
  DockerImage : string;
  image_env : gmap string string;
  ID : string
}.

(** Modelled from the spec: [image.SetEnv(key, value)] sets one variable of
    the image's environment mapping. *)
Definition SetEnv (key value : string) (image : containerImage) : containerImage :=
  {| image_os := image_os image;
     image_arch := image_arch image;
     DockerImage := DockerImage image;
     image_env := <[key := value]> (image_env image);
     ID := ID image |}.

(** [Images] and [defaultContext] of the [freeBSD] struct. *)
Record freeBSD : Type := mkFreeBSD {
  Images : list containerImage;
  defaultContext : Context
}.

(** *** setupContainerImages *)

(** A call either returns or panics (a method called on a nil interface). *)
Inductive outcome (A : Type) : Type :=
| Returned (a : A)
| Panicked.
Arguments Returned {A} a.
Arguments Panicked {A}.

Section setup.

(** [runtime.GOARCH], the architecture of the host. *)
Variable GOARCH : string.
(** [CommonFlags] and [targetArchFlag] are declared in another file. *)
Variable CommonFlags : Type.
Variable targetArchFlag : Type.
(** [targetArchFromFlag(flag, supported)]. *)
Variable targetArchFromFlag :
  targetArchFlag -> list Architecture -> list Architecture * option error.
(** [makeDefaultContext(flags, args)]. *)
Variable makeDefaultContext : CommonFlags -> list string -> Context * option error.
(** The container engine returned by [newContainerEngine(ctx)] is used
    through its method [createContainerImage(arch, OS, image)] only. *)
Variable newContainerEngine :
  Context -> (Architecture -> string -> string -> containerImage) * option error.
(** [overrideDockerImage(flags, image)]. *)
Variable overrideDockerImage : CommonFlags -> string -> string.

Record freebsdFlags : Type := mkFlags {
  CommonFlags_ : CommonFlags;
  TargetArch : targetArchFlag
}.

(** The value given to [CGO_LDFLAGS]: [v+" -fuse-ld=lld"] when the context's
    environment has the variable, ["-fuse-ld=lld"] otherwise. *)
Definition lld_flags (ctx : Context) : string :=
  match Env ctx !! "CGO_LDFLAGS" with
  | Some v => v +:+ " -fuse-ld=lld"
  | None => "-fuse-ld=lld"
  end.

(** The body of the loop over the target architectures, up to the
    [append]: the image built for [arch], or [None] when no [case] of the
    switch assigns [image] and [image.SetEnv] is called on a nil interface. *)
Definition setupImage
    (createContainerImage : Architecture -> string -> string -> containerImage)
    (flags : freebsdFlags) (ctx : Context) (arch : Architecture)
  : option containerImage :=
  if String.eqb arch ArchAmd64 then
    let image := createContainerImage arch freebsdOS
                   (overrideDockerImage (CommonFlags_ flags) freebsdImageAmd64) in
    let image := SetEnv "GOARCH" "amd64" image in
    let image := SetEnv "CC" "clang --sysroot=/freebsd --target=x86_64-unknown-freebsd12" image in
    let image := SetEnv "CXX" "clang++ --sysroot=/freebsd --target=x86_64-unknown-freebsd12" image in
    let image :=
      if String.eqb GOARCH ArchArm64
      then SetEnv "CGO_LDFLAGS" (lld_flags ctx) image
      else image in
    Some (SetEnv "GOOS" "freebsd" image)
  else if String.eqb arch ArchArm64 then
    let image := createContainerImage arch freebsdOS
                   (overrideDockerImage (CommonFlags_ flags) freebsdImageArm64) in
    let image := SetEnv "GOARCH" "arm64" image in
    let image := SetEnv "CGO_LDFLAGS" (lld_flags ctx) image in
    let image := SetEnv "CC" "clang --sysroot=/freebsd --target=aarch64-unknown-freebsd12" image in
    let image := SetEnv "CXX" "clang++ --sysroot=/freebsd --target=aarch64-unknown-freebsd12" image in
    Some (SetEnv "GOOS" "freebsd" image)
  else
    None.

(** [for _, arch := range targetArch { ...; cmd.Images = append(cmd.Images, image) }]. *)
Fixpoint setupImages
    (createContainerImage : Architecture -> string -> string -> containerImage)
    (flags : freebsdFlags) (ctx : Context)
    (targetArch : list Architecture) (images : list containerImage)
  : outcome (list containerImage) :=
  match targetArch with
  | [] => Returned images
  | arch :: rest =>
      match setupImage createContainerImage flags ctx arch with
      | None => Panicked
      | Some image =>
          setupImages createContainerImage flags ctx rest (images ++ [image])
      end
  end.

(** [setupContainerImages] updates the receiver and returns an error. *)
Definition setupContainerImages
    (cmd : freeBSD) (flags : freebsdFlags) (args : list string)
  : outcome (freeBSD * option error) :=
  let '(targetArch, err) := targetArchFromFlag (TargetArch flags) freebsdArchSupported in
  match err with
  | Some err =>
      Returned (cmd, Some (Errorf ("could not make build context for " +:+ freebsdOS +:+ " OS: ")
                                  (Error err)))
  | None =>
      let '(ctx, err) := makeDefaultContext (CommonFlags_ flags) args in
      match err with
      | Some err => Returned (cmd, Some err)
      | None =>
          let cmd := {| Images := Images cmd; defaultContext := ctx |} in
          let '(runner, err) := newContainerEngine ctx in
          match err with
          | Some err => Returned (cmd, Some err)
          | None =>
              match setupImages runner flags ctx targetArch (Images cmd) with
              | Panicked => Panicked
              | Returned images =>
                  Returned ({| Images := images; defaultContext := ctx |}, None)
              end
          end
      end
  end.

End setup.

(** *** Build *)

(** The calls [Build] makes to its collaborators, with their arguments. *)
Inductive call : Type :=
| call_prepareIcon (ctx : Context) (image : containerImage)
| call_fyneRelease (ctx : Context) (image : containerImage)
| call_fynePackage (ctx : Context) (image : containerImage)
| call_Run (image : containerImage) (vol : Volume) (opts : options)
           (cmdArgs : list string).

(** The in-container commands among the calls: [image.Run] itself, and the
    packaging procedures, which run their commands in the container. *)
Definition in_container (c : call) : bool :=
  match c with
  | call_prepareIcon _ _ => false
  | call_fyneRelease _ _ | call_fynePackage _ _ | call_Run _ _ _ _ => true
  end.

Definition is_Run (c : call) : bool :=
  match c with
  | call_Run _ _ _ _ => true
  | _ => false
  end.

(** The image a call is made for. *)
Definition call_image (c : call) : containerImage :=
  match c with
  | call_prepareIcon _ image | call_fyneRelease _ image | call_fynePackage _ image
  | call_Run image _ _ _ => image
  end.

(** The archive a call extracts: the argument after [-xf] of an
    in-container [tar]. *)
Definition tar_archive (c : call) : option string :=
  match c with
  | call_Run _ _ _ (command :: _ :: archive :: _) =>
      if String.eqb command "tar" then Some archive else None
  | _ => None
  end.








(** The path a call writes the package to: the last argument of an
    in-container [mv]. *)
Definition mv_destination (c : call) : option string :=
  match c with
  | call_Run _ _ _ [command; _; destination] =>
      if String.eqb command "mv" then Some destination else None
  | _ => None
  end.

(** The directory a call extracts into: the working directory of an
    in-container [tar]. *)
Definition tar_directory (c : call) : option string :=
  match c with
  | call_Run _ _ opts (command :: _) =>
      if String.eqb command "tar" then Some (WorkDir opts) else None
  | _ => None
  end.

Section build.

(** The state of the host and of the containers, which the collaborators
    read and change. *)
Variable World : Type.

(** A collaborator answers a call with an error or [nil] and a new state. *)
Variable respond : call -> World -> option error * World.

(** The state threaded through [Build]: the world and the calls made so
    far, oldest first. *)
Record machine : Type := mkMachine {
  world : World;
  trace : list call
}.

Definition M (A : Type) : Type := machine -> A * machine.

Definition ret {A : Type} (a : A) : M A := fun m => (a, m).

Definition bind {A B : Type} (c : M A) (k : A -> M B) : M B :=
  fun m => let '(a, m') := c m in k a m'.

Notation "'let*' x ':=' c 'in' k" := (bind c (fun x => k))
  (at level 10, x name, c at level 100, k at level 200).

(** Making a call: the collaborator answers and the call is recorded. *)
Definition invoke (c : call) : M (option error) :=
  fun m =>
    let '(err, w) := respond c (world m) in
    (err, {| world := w; trace := trace m ++ [c] |}).

Definition prepareIcon (ctx : Context) (image : containerImage) : M (option error) :=
  invoke (call_prepareIcon ctx image).
Definition fyneRelease (ctx : Context) (image : containerImage) : M (option error) :=
  invoke (call_fyneRelease ctx image).
Definition fynePackage (ctx : Context) (image : containerImage) : M (option error) :=
  invoke (call_fynePackage ctx image).
(** [image.Run(vol, opts, cmdArgs)]. *)
Definition Run (image : containerImage) (vol : Volume) (opts : options)
    (cmdArgs : list string) : M (option error) :=
  invoke (call_Run image vol opts cmdArgs).

(** The calls a computation makes when it is run from the state [m]. *)
Definition calls_made {A : Type} (run : M A) (m : machine) : list call :=
  drop (length (trace m)) (trace (run m).2).

(** [fmt.Sprintf("%s.tar.xz", cmd.defaultContext.Name)]. *)
Definition packageName (cmd : freeBSD) : string :=
  Name (defaultContext cmd) +:+ ".tar.xz".

(** The destination of the [mv], which is also the archive given to [tar]. *)
Definition relocatePath (cmd : freeBSD) (image : containerImage) : string :=
  JoinPathContainer
    [TmpDirContainer (Volume_ (defaultContext cmd)); ID image; packageName cmd].

(** The working directory of the [tar] command. *)
Definition extractDir (cmd : freeBSD) (image : containerImage) : string :=
  JoinPathContainer [BinDirContainer (Volume_ (defaultContext cmd)); ID image].

Definition relocateArgs (cmd : freeBSD) (image : containerImage) : list string :=
  ["mv";
   JoinPathContainer [WorkDirContainer (Volume_ (defaultContext cmd)); packageName cmd];
   relocatePath cmd image].

Definition extractArgs (cmd : freeBSD) (image : containerImage) : list string :=
  ["tar"; "-xf"; relocatePath cmd image; "--strip-components=3"; "usr/local/bin"].

(** [Build]; the [log.Info] line writes to the log only and is left out.
    The results of the two [image.Run] calls are dropped, as in the code. *)
Definition Build (cmd : freeBSD) (image : containerImage) : M (string * option error) :=
  let packageName := packageName cmd in
  let* err := prepareIcon (defaultContext cmd) image in
  match err with
  | Some err => ret ("", Some err)
  | None =>
      let* err := (if Release (defaultContext cmd)
                   then fyneRelease (defaultContext cmd) image
                   else fynePackage (defaultContext cmd) image) in
      match err with
      | Some err => ret ("", Some (Errorf "could not package the Fyne app: " (Error err)))
      | None =>
          let* _ := Run image (Volume_ (defaultContext cmd)) no_options
                      (relocateArgs cmd image) in
          let* _ := Run image (Volume_ (defaultContext cmd))
                      {| WorkDir := extractDir cmd image |}
                      (extractArgs cmd image) in
          ret (packageName, None)
      end
  end.

End build.

End freebsd.

(** ** Concrete hosts, images and worlds used to run the definitions *)

Module sample.
Import engine freebsd.

(** A host with docker at [/usr/local/bin/docker] and no podman on the
    search path; the binary at the fixed path prints [version]. *)
Definition look_path (file : string) : string * option error :=
  if String.eqb file "docker" then ("/usr/local/bin/docker", None)
  else ("", Some (otherError "*exec.Error" "executable file not found in $PATH")).

Definition version_probe (version : string) (err : option error)
    (name : string) (args : list string) : string * option error :=
  (version, err).

Definition exit_status_1 : error := otherError "*exec.ExitError" "exit status 1".

Definition ctx_volume : Volume :=
  {| WorkDirContainer := "/app";
     TmpDirContainer := "/app/fyne-cross/tmp";
     BinDirContainer := "/app/fyne-cross/bin" |}.

Definition ctx_plain : Context :=
  {| Volume_ := ctx_volume; Name := "demo"; Release := false; Env := ∅ |}.

Definition ctx_existing : Context :=
  {| Volume_ := ctx_volume; Name := "demo"; Release := false;
     Env := {[ "CGO_LDFLAGS" := "-existing" ]} |}.

(** A factory that starts every image with an empty environment and
    derives the identity token from OS and architecture. *)
Definition create_image (arch : Architecture) (OS image : string) : containerImage :=
  {| image_os := OS; image_arch := arch; DockerImage := image;
     image_env := ∅; ID := OS +:+ "-" +:+ arch |}.

Definition image_amd64 : containerImage := create_image ArchAmd64 freebsdOS freebsdImageAmd64.
Definition image_arm64 : containerImage := create_image ArchArm64 freebsdOS freebsdImageArm64.


Definition cmd_plain : freeBSD := {| Images := []; defaultContext := ctx_plain |}.

Definition ctx_release : Context :=
  {| Volume_ := ctx_volume; Name := "demo"; Release := true; Env := ∅ |}.

Definition cmd_release : freeBSD := {| Images := []; defaultContext := ctx_release |}.

(** Collaborators that all succeed. *)
Definition all_succeed (c : call) (w : unit) : option error * unit := (None, w).

(** The icon cannot be prepared. *)
Definition icon_fails (c : call) (w : unit) : option error * unit :=
  match c with
  | call_prepareIcon _ _ => (Some (otherError "*fs.PathError" "open Icon.png: no such file"), w)
  | _ => (None, w)
  end.

(** Packaging fails in the container. *)
Definition package_fails (c : call) (w : unit) : option error * unit :=
  match c with
  | call_fyneRelease _ _ | call_fynePackage _ _ => (Some exit_status_1, w)
  | _ => (None, w)
  end.

(** Preparation and packaging succeed, every [image.Run] fails. *)
Definition run_fails (c : call) (w : unit) : option error * unit :=
  match c with
  | call_Run _ _ _ _ => (Some exit_status_1, w)
  | _ => (None, w)
  end.

Definition start : machine unit := {| world := tt; trace := [] |}.

(** Flags that carry the list of target architectures as given; the list
    is refused when it names an architecture that is not supported. *)
Definition flags_for (archs : list Architecture) : freebsdFlags unit (list Architecture) :=
  {| CommonFlags_ := tt; TargetArch := archs |}.

Definition target_arch_from_flag (flag supported : list Architecture)
  : list Architecture * option error :=
  if forallb (fun arch => existsb (String.eqb arch) supported) flag
  then (flag, None)
  else ([], Some (errorString "arch not supported")).

Definition make_context (ctx : Context) (flags : unit) (args : list string)
  : Context * option error := (ctx, None).

Definition new_engine (ctx : Context)
  : (Architecture -> string -> string -> containerImage) * option error :=
  (create_image, None).

Definition no_override (flags : unit) (image : string) : string := image.

(** A flag reader that lets every architecture through. *)
Definition accept_any_flag (flag supported : list Architecture)
  : list Architecture * option error := (flag, None).

(** The cluster cannot be reached. *)
Definition cluster_down : error := otherError "*url.Error" "dial tcp: connection refused".

(** [setupContainerImages] on a host of architecture [GOARCH], for the
    shared context [ctx] and the target architectures [archs]. *)
Definition setup (GOARCH : string) (ctx : Context) (archs : list Architecture)
  : outcome (freeBSD * option error) :=
  setupContainerImages GOARCH unit (list Architecture)
    target_arch_from_flag (make_context ctx) new_engine no_override
    {| Images := []; defaultContext := ctx_plain |} (flags_for archs) [].

(** The same run with a flag reader that checks nothing. *)
Definition setup_unchecked (GOARCH : string) (ctx : Context) (archs : list Architecture)
  : outcome (freeBSD * option error) :=
  setupContainerImages GOARCH unit (list Architecture)
    accept_any_flag (make_context ctx) new_engine no_override
    {| Images := []; defaultContext := ctx_plain |} (flags_for archs) [].

(** The receiver after that run. *)
Definition setup_result (GOARCH : string) (ctx : Context) (archs : list Architecture)
  : freeBSD :=
  match setup GOARCH ctx archs with
  | Returned (cmd, _) => cmd
  | Panicked => {| Images := []; defaultContext := ctx_plain |}
  end.

End sample.

(** ** Properties of the string functions *)

Lemma append_cons (c : ascii) (s t : string) : String c s +:+ t = String c (s +:+ t).
Proof. reflexivity. Qed.

Lemma append_empty_r (s : string) : s +:+ "" = s.
Proof.
  induction s as [|c t IH]; [reflexivity | now rewrite append_cons, IH].
Qed.

Lemma append_assoc (s t u : string) : (s +:+ t) +:+ u = s +:+ (t +:+ u).
Proof.
  induction s as [|c s' IH]; [reflexivity | now rewrite !append_cons, IH].
Qed.

Lemma length_append (s t : string) :
  String.length (s +:+ t) = String.length s + String.length t.
Proof.
  induction s as [|c s' IH]; [reflexivity|].
  rewrite append_cons. simpl. now rewrite IH.
Qed.

(** Appending the same suffix to two strings keeps them apart. *)
Lemma append_inv_tail (s t u : string) : s +:+ u = t +:+ u -> s = t.
Proof.
  revert t. induction s as [|c s' IH]; intros [|d t'] H.
  - reflexivity.
  - apply (f_equal String.length) in H.
    rewrite !length_append in H. simpl in H. lia.
  - apply (f_equal String.length) in H.
    rewrite !length_append in H. simpl in H. lia.
  - rewrite !append_cons in H. injection H as -> H. f_equal. now apply IH.
Qed.

Lemma HasPrefix_iff (s prefix : string) :
  HasPrefix s prefix = true <-> exists rest, s = prefix +:+ rest.
Proof.
  revert s. induction prefix as [|p prefix IH]; intros s; simpl.
  - split; [intros _; exists s; reflexivity | reflexivity].
  - destruct s as [|c s].
    + split; [discriminate | intros [rest H]; discriminate].
    + destruct (Ascii.eqb_spec p c) as [->|Hne].
      * rewrite IH. split; intros [rest H]; exists rest.
        -- now rewrite H.
        -- now inversion H.
      * split; [discriminate | intros [rest H]; injection H as H1 H2; now subst].
Qed.

(** [Contains s substr] holds exactly when [substr] is a substring of [s]. *)
Lemma Contains_iff (s substr : string) :
  Contains s substr = true <-> exists before after, s = before +:+ (substr +:+ after).
Proof.
  induction s as [|c s IH]; simpl.
  - rewrite orb_false_r, HasPrefix_iff. split.
    + intros [rest H]. exists "", rest. exact H.
    + intros [[|b before] [after H]]; [exists after; exact H | discriminate].
  - rewrite orb_true_iff, HasPrefix_iff, IH. split.
    + intros [[rest H] | [before [after H]]].
      * exists "", rest. exact H.
      * exists (String c before), after. simpl. now rewrite H.
    + intros [[|b before] [after H]].
      * left. exists after. exact H.
      * right. exists before, after. simpl in H. now inversion H.
Qed.

Lemma Contains_suffix (v substr : string) : Contains (v +:+ substr) substr = true.
Proof.
  apply Contains_iff. exists v, "". now rewrite append_empty_r.
Qed.

Lemma Contains_self (substr : string) : Contains substr substr = true.
Proof. exact (Contains_suffix "" substr). Qed.

(** ** The engine resolver *)


Section engine_properties.
Import engine.

Variable LookPath : string -> string * option error.
Variable Output : string -> list string -> string * option error.
Variable ToLower : string -> string.
Variable checkKubernetesClient : option error.

Local Abbreviation MakeEngine :=
  (engine.MakeEngine LookPath Output ToLower checkKubernetesClient).

(** The path whose [--version] output autodetection reads. *)
Local Abbreviation fixed_path := "/usr/bin/docker"%string.

Lemma MakeEngine_docker_eq :
  MakeEngine "docker" =
  match LookPath "docker" with
  | (_, Some _) => (zero, Some (errors_New "docker binary not found in PATH"))
  | (binaryPath, None) => ({| Name := "docker"; Binary := binaryPath |}, None)
  end.
Proof. unfold engine.MakeEngine. simpl. now destruct (LookPath _) as [? [?|]]. Qed.

Lemma MakeEngine_podman_eq :
  MakeEngine "podman" =
  match LookPath "podman" with
  | (_, Some _) => (zero, Some (errors_New "podman binary not found in PATH"))
  | (binaryPath, None) => ({| Name := "podman"; Binary := binaryPath |}, None)
  end.
Proof. unfold engine.MakeEngine. simpl. now destruct (LookPath _) as [? [?|]]. Qed.

Lemma MakeEngine_kubernetes_eq :
  MakeEngine "kubernetes" =
  match checkKubernetesClient with
  | Some err => (zero, Some err)
  | None => ({| Name := "kubernetes"; Binary := "" |}, None)
  end.
Proof. reflexivity. Qed.

Lemma MakeEngine_empty_eq :
  MakeEngine "" =
  match Output fixed_path ["--version"] with
  | (out, Some _) => (zero, Some (Errorf "could not detect engine version: " out))
  | (out, None) =>
      if Contains (ToLower out) "docker" then
        ({| Name := "docker"; Binary := fixed_path |}, None)
      else if Contains (ToLower out) "podman" then
        ({| Name := "podman"; Binary := fixed_path |}, None)
      else (zero, Some (Errorf "could not detect engine version: " out))
  end.
Proof.
  unfold engine.MakeEngine. simpl.
  now destruct (Output fixed_path ["--version"]) as [out [err|]].
Qed.

Lemma MakeEngine_unsupported (e : string) :
  e <> "docker" -> e <> "podman" -> e <> "" -> e <> "kubernetes" ->
  MakeEngine e = (zero, Some (errors_New "unsupported container engine")).
Proof.
  intros H1 H2 H3 H4. unfold engine.MakeEngine.
  destruct (String.eqb_spec e dockerEngine); [contradiction|].
  destruct (String.eqb_spec e podmanEngine); [contradiction|].
  destruct (String.eqb_spec e ""); [contradiction|].
  destruct (String.eqb_spec e kubernetesEngine); [contradiction|].
  reflexivity.
Qed.

(** C2. Autodetection ([MakeEngine] called with the empty string) is a case
    analysis on the result of running [/usr/bin/docker --version]: when the
    invocation fails the result is the zero Engine and a "could not detect
    engine version" error; otherwise, when the lowercased output contains
    "docker" the result is the docker Engine with the fixed path; else when
    it contains "podman" the result is the podman Engine with the fixed
    path; else it is the zero Engine and the detection error. The result
    depends on nothing else of the host. *)
Theorem MakeEngine_autodetect (out : string) (err : option error) :
  Output fixed_path ["--version"] = (out, err) ->
  (err <> None ->
     MakeEngine "" = (zero, Some (Errorf "could not detect engine version: " out))) /\
  (err = None -> Contains (ToLower out) "docker" = true ->
     MakeEngine "" = ({| Name := "docker"; Binary := fixed_path |}, None)) /\
  (err = None -> Contains (ToLower out) "docker" = false ->
   Contains (ToLower out) "podman" = true ->
     MakeEngine "" = ({| Name := "podman"; Binary := fixed_path |}, None)) /\
  (err = None -> Contains (ToLower out) "docker" = false ->
   Contains (ToLower out) "podman" = false ->
     MakeEngine "" = (zero, Some (Errorf "could not detect engine version: " out))).
Proof.
  intros Hout. rewrite MakeEngine_empty_eq, Hout.
  repeat split.
  - destruct err; [reflexivity | contradiction].
  - intros -> ->. reflexivity.
  - intros -> -> ->. reflexivity.
  - intros -> -> ->. reflexivity.
Qed.

(** C4. For a requested token "docker" or "podman", [MakeEngine] looks the
    token up on the executable search path: when the lookup succeeds the
    result is the Engine named by the requested token with the path found,
    when it fails the result is the zero Engine and a "binary not found in
    PATH" error. An Engine returned without error always carries the
    requested name, never another one. *)
Theorem MakeEngine_explicit (e path : string) (err : option error) :
  e = "docker" \/ e = "podman" ->
  LookPath e = (path, err) ->
  (err = None -> MakeEngine e = ({| Name := e; Binary := path |}, None)) /\
  (err <> None ->
     MakeEngine e = (zero, Some (errors_New (e +:+ " binary not found in PATH")))) /\
  (forall eng, MakeEngine e = (eng, None) ->
     Name eng = e /\ Binary eng = path /\ err = None).
Proof.
  intros [-> | ->] Hlook.
  - rewrite MakeEngine_docker_eq, Hlook. split; [|split].
    + now intros ->.
    + destruct err; [reflexivity | contradiction].
    + intros eng H. destruct err; inversion H. auto.
  - rewrite MakeEngine_podman_eq, Hlook. split; [|split].
    + now intros ->.
    + destruct err; [reflexivity | contradiction].
    + intros eng H. destruct err; inversion H. auto.
Qed.

(** Every Engine returned without error was requested by one of the four
    recognised tokens and is one of these shapes. *)
Lemma MakeEngine_ok_inv (e : string) (eng : Engine) :
  MakeEngine e = (eng, None) ->
  (e = "docker" /\ exists path, LookPath "docker" = (path, None) /\
     eng = {| Name := "docker"; Binary := path |}) \/
  (e = "podman" /\ exists path, LookPath "podman" = (path, None) /\
     eng = {| Name := "podman"; Binary := path |}) \/
  (e = "" /\ (Name eng = "docker" \/ Name eng = "podman") /\ Binary eng = fixed_path) \/
  (e = "kubernetes" /\ checkKubernetesClient = None /\
     eng = {| Name := "kubernetes"; Binary := "" |}).
Proof.
  intros H.
  destruct (String.eqb_spec e "docker") as [-> | Hd].
  { left. split; [reflexivity|]. rewrite MakeEngine_docker_eq in H.
    destruct (LookPath "docker") as [path [err|]]; inversion H. now exists path. }
  destruct (String.eqb_spec e "podman") as [-> | Hp].
  { right; left. split; [reflexivity|]. rewrite MakeEngine_podman_eq in H.
    destruct (LookPath "podman") as [path [err|]]; inversion H. now exists path. }
  destruct (String.eqb_spec e "") as [-> | Ha].
  { right; right; left. split; [reflexivity|]. rewrite MakeEngine_empty_eq in H.
    destruct (Output fixed_path ["--version"]) as [out [err|]]; [inversion H|].
    destruct (Contains (ToLower out) "docker"); [inversion H; simpl; auto|].
    destruct (Contains (ToLower out) "podman"); inversion H. simpl. auto. }
  destruct (String.eqb_spec e "kubernetes") as [-> | Hk].
  { right; right; right. split; [reflexivity|]. rewrite MakeEngine_kubernetes_eq in H.
    destruct checkKubernetesClient; inversion H. auto. }
  rewrite MakeEngine_unsupported in H by assumption. inversion H.
Qed.

(** [execabs.LookPath] returns the path of the executable it found: a
    successful lookup never returns the empty path. *)
Hypothesis LookPath_found :
  forall file path, LookPath file = (path, None) -> path <> "".


End engine_properties.

(** The end-to-end scenarios of autodetection, on a host whose fixed path
    prints a docker version, a podman version, something else, or fails. *)
Lemma MakeEngine_autodetect_witness :
  engine.MakeEngine sample.look_path
    (sample.version_probe "Docker version 24.0.5" None) ToLowerASCII None ""
  = ({| engine.Name := "docker"; engine.Binary := "/usr/bin/docker" |}, None) /\
  engine.MakeEngine sample.look_path
    (sample.version_probe "podman version 4.3.1" None) ToLowerASCII None ""
  = ({| engine.Name := "podman"; engine.Binary := "/usr/bin/docker" |}, None) /\
  engine.MakeEngine sample.look_path
    (sample.version_probe "nerdctl version 1.7.0" None) ToLowerASCII None ""
  = (engine.zero,
     Some (errorString "could not detect engine version: nerdctl version 1.7.0")) /\
  engine.MakeEngine sample.look_path
    (sample.version_probe "Docker version 24.0.5" (Some sample.exit_status_1))
    ToLowerASCII None ""
  = (engine.zero,
     Some (errorString "could not detect engine version: Docker version 24.0.5")).
Proof.
  split; [|split; [|split]].
  - apply (MakeEngine_autodetect sample.look_path
             (sample.version_probe "Docker version 24.0.5" None) ToLowerASCII None
             "Docker version 24.0.5" None eq_refl); reflexivity.
  - apply (MakeEngine_autodetect sample.look_path
             (sample.version_probe "podman version 4.3.1" None) ToLowerASCII None
             "podman version 4.3.1" None eq_refl); reflexivity.
  - apply (MakeEngine_autodetect sample.look_path
             (sample.version_probe "nerdctl version 1.7.0" None) ToLowerASCII None
             "nerdctl version 1.7.0" None eq_refl); reflexivity.
  - apply (proj1 (MakeEngine_autodetect sample.look_path
             (sample.version_probe "Docker version 24.0.5" (Some sample.exit_status_1))
             ToLowerASCII None
             "Docker version 24.0.5" (Some sample.exit_status_1) eq_refl)); discriminate.
Defined.

(** On the sample host docker is found and podman is not. *)
Lemma MakeEngine_explicit_witness :
  engine.MakeEngine sample.look_path
    (sample.version_probe "" None) ToLowerASCII None "docker"
  = ({| engine.Name := "docker"; engine.Binary := "/usr/local/bin/docker" |}, None) /\
  engine.MakeEngine sample.look_path
    (sample.version_probe "" None) ToLowerASCII None "podman"
  = (engine.zero, Some (errorString "podman binary not found in PATH")).
Proof.
  split.
  - apply (MakeEngine_explicit sample.look_path (sample.version_probe "" None)
             ToLowerASCII None "docker" "/usr/local/bin/docker" None
             (or_introl eq_refl) eq_refl); reflexivity.
  - apply (MakeEngine_explicit sample.look_path (sample.version_probe "" None)
             ToLowerASCII None "podman" "" (Some _)
             (or_intror eq_refl) eq_refl); discriminate.
Defined.



(** ** setupContainerImages *)

Section setup_properties.
Import freebsd.

Variable GOARCH : string.
Variable CommonFlags : Type.
Variable targetArchFlag : Type.
Variable targetArchFromFlag :
  targetArchFlag -> list Architecture -> list Architecture * option error.
Variable makeDefaultContext : CommonFlags -> list string -> Context * option error.
Variable newContainerEngine :
  Context -> (Architecture -> string -> string -> containerImage) * option error.
Variable overrideDockerImage : CommonFlags -> string -> string.

Local Abbreviation flags_t := (freebsdFlags CommonFlags targetArchFlag).
Local Abbreviation setupImage :=
  (freebsd.setupImage GOARCH CommonFlags targetArchFlag overrideDockerImage).
Local Abbreviation setupImages :=
  (freebsd.setupImages GOARCH CommonFlags targetArchFlag overrideDockerImage).
Local Abbreviation setupContainerImages :=
  (freebsd.setupContainerImages GOARCH CommonFlags targetArchFlag
     targetArchFromFlag makeDefaultContext newContainerEngine overrideDockerImage).

Lemma SetEnv_lookup_eq (key value : string) (image : containerImage) :
  image_env (SetEnv key value image) !! key = Some value.
Proof. unfold SetEnv. simpl. apply lookup_insert_eq. Qed.

Lemma SetEnv_lookup_ne (key key' value : string) (image : containerImage) :
  key <> key' ->
  image_env (SetEnv key value image) !! key' = image_env image !! key'.
Proof. intros Hne. unfold SetEnv. simpl. now apply lookup_insert_ne. Qed.

Lemma SetEnv_ID (key value : string) (image : containerImage) :
  ID (SetEnv key value image) = ID image.
Proof. reflexivity. Qed.

(** The value written to [CGO_LDFLAGS] keeps the value of the shared
    context in front of the flag. *)
Lemma lld_flags_Some (ctx : Context) (v : string) :
  Env ctx !! "CGO_LDFLAGS" = Some v -> lld_flags ctx = v +:+ " -fuse-ld=lld".
Proof. intros H. unfold lld_flags. now rewrite H. Qed.

Lemma lld_flags_None (ctx : Context) :
  Env ctx !! "CGO_LDFLAGS" = None -> lld_flags ctx = "-fuse-ld=lld".
Proof. intros H. unfold lld_flags. now rewrite H. Qed.

Lemma lld_flags_Contains (ctx : Context) :
  Contains (lld_flags ctx) "-fuse-ld=lld" = true.
Proof.
  unfold lld_flags. destruct (Env ctx !! "CGO_LDFLAGS") as [v|].
  - change (v +:+ " -fuse-ld=lld") with (v +:+ (" " +:+ "-fuse-ld=lld")).
    rewrite <- append_assoc. apply Contains_suffix.
  - apply Contains_self.
Qed.

(** The loop body assigns an image for the two supported architectures
    and for no other. *)
Lemma setupImage_is_Some create (flags : flags_t) ctx arch :
  is_Some (setupImage create flags ctx arch) <-> arch = ArchAmd64 \/ arch = ArchArm64.
Proof.
  unfold freebsd.setupImage.
  destruct (String.eqb_spec arch ArchAmd64) as [-> | Ha].
  { split; [auto | intros _; eexists; reflexivity]. }
  destruct (String.eqb_spec arch ArchArm64) as [-> | Hb].
  { split; [auto | intros _; eexists; reflexivity]. }
  split; [intros [x Hx]; discriminate | intros [? | ?]; contradiction].
Qed.

(** What the arm64 case leaves in [CGO_LDFLAGS], on any host. *)
Lemma setupImage_arm64 create (flags : flags_t) ctx :
  exists image,
    setupImage create flags ctx ArchArm64 = Some image /\
    image_env image !! "CGO_LDFLAGS" = Some (lld_flags ctx).
Proof.
  eexists. split; [reflexivity|].
  rewrite !SetEnv_lookup_ne by discriminate. apply SetEnv_lookup_eq.
Qed.

(** What the amd64 case leaves in [CGO_LDFLAGS]: the flag on an arm64 host,
    the factory's value on any other host. *)
Lemma setupImage_amd64 create (flags : flags_t) ctx :
  exists image,
    setupImage create flags ctx ArchAmd64 = Some image /\
    image_env image !! "CGO_LDFLAGS" =
      if String.eqb GOARCH "arm64" then Some (lld_flags ctx)
      else image_env (create ArchAmd64 freebsdOS
                        (overrideDockerImage (CommonFlags_ _ _ flags) freebsdImageAmd64))
             !! "CGO_LDFLAGS".
Proof.
  eexists. split; [reflexivity|].
  rewrite SetEnv_lookup_ne by discriminate.
  change (String.eqb GOARCH ArchArm64) with (String.eqb GOARCH "arm64").
  destruct (String.eqb GOARCH "arm64").
  - apply SetEnv_lookup_eq.
  - now rewrite !SetEnv_lookup_ne by discriminate.
Qed.

(** The loop appends one image per architecture, in order, each built by
    the loop body; it panics exactly when the body assigns no image. *)
Lemma setupImages_Returned create (flags : flags_t) ctx archs images images' :
  setupImages create flags ctx archs images = Returned images' <->
  exists new, images' = images ++ new /\
    Forall2 (fun arch image => setupImage create flags ctx arch = Some image) archs new.
Proof.
  revert images. induction archs as [|arch archs IH]; intros images; simpl.
  - split.
    + intros H. injection H as <-. exists []. split; [now rewrite app_nil_r | constructor].
    + intros (new & -> & HF). inversion HF. now rewrite app_nil_r.
  - destruct (setupImage create flags ctx arch) as [image|] eqn:Himg.
    + rewrite IH. split.
      * intros (new & -> & HF). exists (image :: new). split.
        -- now rewrite <- app_assoc.
        -- now constructor.
      * intros (new & -> & HF). inversion HF as [|? image' ? new' Hh Ht]; subst.
        exists new'. split; [|assumption].
        rewrite Himg in Hh. injection Hh as <-. now rewrite <- app_assoc.
    + split; [discriminate|].
      intros (new & -> & HF). inversion HF as [|? image' ? new' Hh Ht]; subst.
      rewrite Himg in Hh. discriminate.
Qed.

Lemma setupImages_supported create (flags : flags_t) ctx archs images :
  Forall (fun arch => arch = ArchAmd64 \/ arch = ArchArm64) archs ->
  exists images', setupImages create flags ctx archs images = Returned images'.
Proof.
  intros HF. revert images. induction HF as [|arch archs Harch _ IH]; intros images; simpl.
  - now eexists.
  - apply setupImage_is_Some with (create := create) (flags := flags) (ctx := ctx) in Harch.
    destruct Harch as [image ->]. apply IH.
Qed.

(** A run that returns without error went through the three collaborators
    and the loop. *)
Lemma setupContainerImages_ok cmd (flags : flags_t) args cmd' :
  setupContainerImages cmd flags args = Returned (cmd', None) ->
  exists archs create new,
    targetArchFromFlag (TargetArch _ _ flags) freebsdArchSupported = (archs, None) /\
    makeDefaultContext (CommonFlags_ _ _ flags) args = (defaultContext cmd', None) /\
    newContainerEngine (defaultContext cmd') = (create, None) /\
    Images cmd' = Images cmd ++ new /\
    Forall2 (fun arch image =>
               setupImage create flags (defaultContext cmd') arch = Some image) archs new.
Proof.
  unfold freebsd.setupContainerImages.
  destruct (targetArchFromFlag _ _) as [archs [err|]]; [discriminate|].
  destruct (makeDefaultContext _ _) as [ctx [err|]]; [discriminate|].
  destruct (newContainerEngine ctx) as [create [err|]] eqn:Hengine; [discriminate|].
  simpl.
  destruct (freebsd.setupImages _ _ _ _ _ _ _ _ _) as [images|] eqn:Hloop; [|discriminate].
  intros H. injection H as <-. simpl.
  apply setupImages_Returned in Hloop. destruct Hloop as (new & -> & HF).
  exists archs, create, new. rewrite Hengine. auto.
Qed.

(** When the collaborators succeed and every target architecture is a
    supported one, the run returns without error. *)
Lemma setupContainerImages_returns cmd (flags : flags_t) args archs ctx create :
  targetArchFromFlag (TargetArch _ _ flags) freebsdArchSupported = (archs, None) ->
  makeDefaultContext (CommonFlags_ _ _ flags) args = (ctx, None) ->
  newContainerEngine ctx = (create, None) ->
  Forall (fun arch => arch = ArchAmd64 \/ arch = ArchArm64) archs ->
  exists cmd', setupContainerImages cmd flags args = Returned (cmd', None).
Proof.
  intros Harchs Hctx Hengine Hsupp. unfold freebsd.setupContainerImages.
  rewrite Harchs, Hctx, Hengine. simpl.
  destruct (setupImages_supported create flags ctx archs (Images cmd) Hsupp) as [images ->].
  now eexists.
Qed.

(** C3. In a run of [setupContainerImages] that returns without error, one
    image is appended per target architecture, and for each of them
    [CGO_LDFLAGS] is written exactly when the target is arm64 (on any
    host), or the target is amd64 and the host is arm64. The value written
    is the shared context's value followed by [" -fuse-ld=lld"] when the
    context has one (so ["-existing"] gives ["-existing -fuse-ld=lld"]) and
    ["-fuse-ld=lld"] otherwise; in every other case the variable is as the
    factory left it. *)
Theorem setupContainerImages_lld_rule cmd (flags : flags_t) args cmd' :
  setupContainerImages cmd flags args = Returned (cmd', None) ->
  exists archs new,
    targetArchFromFlag (TargetArch _ _ flags) freebsdArchSupported = (archs, None) /\
    Images cmd' = Images cmd ++ new /\
    Forall2 (fun arch image =>
      (arch = ArchArm64 \/ (GOARCH = "arm64" /\ arch = ArchAmd64) ->
         image_env image !! "CGO_LDFLAGS" =
           Some (match Env (defaultContext cmd') !! "CGO_LDFLAGS" with
                 | Some v => v +:+ " -fuse-ld=lld"
                 | None => "-fuse-ld=lld"
                 end)) /\
      (~ (arch = ArchArm64 \/ (GOARCH = "arm64" /\ arch = ArchAmd64)) ->
         image_env image !! "CGO_LDFLAGS" =
           image_env ((newContainerEngine (defaultContext cmd')).1 arch freebsdOS
                        (overrideDockerImage (CommonFlags_ _ _ flags) freebsdImageAmd64))
             !! "CGO_LDFLAGS")) archs new.
Proof.
  intros Hrun.
  destruct (setupContainerImages_ok cmd flags args cmd' Hrun)
    as (archs & create & new & Harchs & _ & Hengine & Himages & HF).
  exists archs, new. split; [assumption|]. split; [assumption|].
  rewrite Hengine. simpl.
  eapply Forall2_impl; [exact HF|]. clear HF.
  intros arch image Himg. cbv beta in Himg.
  assert (Hsupp : arch = ArchAmd64 \/ arch = ArchArm64).
  { apply (setupImage_is_Some create flags (defaultContext cmd') arch).
    exists image. exact Himg. }
  destruct Hsupp as [-> | ->].
  - destruct (setupImage_amd64 create flags (defaultContext cmd')) as (image' & Himg' & Henv).
    rewrite Himg in Himg'. injection Himg' as <-.
    rewrite Henv. destruct (String.eqb_spec GOARCH "arm64") as [Hhost | Hhost].
    + split; [reflexivity|]. intros Hno. exfalso. apply Hno. auto.
    + split; [|reflexivity]. intros [Harm | [Hh _]]; [discriminate Harm | contradiction].
  - destruct (setupImage_arm64 create flags (defaultContext cmd')) as (image' & Himg' & Henv).
    rewrite Himg in Himg'. injection Himg' as <-.
    rewrite Henv. split; [reflexivity|]. intros Hno. exfalso. apply Hno. auto.
Qed.

(** C10. In a run of [setupContainerImages] that returns without error,
    every position of the target list that holds arm64 has its image in
    [Images], and that image's [CGO_LDFLAGS] is set to a value that
    contains ["-fuse-ld=lld"], whatever the host architecture is: the
    shared context's value followed by the flag, or the flag alone. *)
Theorem setupContainerImages_arm64_lld cmd (flags : flags_t) args cmd' archs :
  setupContainerImages cmd flags args = Returned (cmd', None) ->
  targetArchFromFlag (TargetArch _ _ flags) freebsdArchSupported = (archs, None) ->
  forall i, archs !! i = Some ArchArm64 ->
  exists image v,
    Images cmd' !! (length (Images cmd) + i) = Some image /\
    image_env image !! "CGO_LDFLAGS" = Some v /\
    Contains v "-fuse-ld=lld" = true /\
    v = match Env (defaultContext cmd') !! "CGO_LDFLAGS" with
        | Some old => old +:+ " -fuse-ld=lld"
        | None => "-fuse-ld=lld"
        end.
Proof.
  intros Hrun Harchs i Hi.
  destruct (setupContainerImages_ok cmd flags args cmd' Hrun)
    as (archs' & create & new & Harchs' & _ & _ & Himages & HF).
  rewrite Harchs in Harchs'. injection Harchs' as <-.
  destruct (Forall2_lookup_l _ _ _ _ _ HF Hi) as (image & Hnew & Himg).
  destruct (setupImage_arm64 create flags (defaultContext cmd')) as (image' & Himg' & Henv).
  rewrite Himg in Himg'. injection Himg' as <-.
  exists image, (lld_flags (defaultContext cmd')).
  split; [|split; [|split]].
  - rewrite Himages, lookup_app_r by lia.
    replace (length (Images cmd) + i - length (Images cmd)) with i by lia.
    exact Hnew.
  - exact Henv.
  - apply lld_flags_Contains.
  - reflexivity.
Qed.

End setup_properties.

(** A run on an amd64 host for amd64 and arm64, with a shared context that
    already has [CGO_LDFLAGS] set to ["-existing"]: the arm64 image gets the
    flag appended to the existing value, the amd64 image gets no
    [CGO_LDFLAGS]. *)
Lemma setupContainerImages_lld_rule_witness :
  (exists image,
     freebsd.Images (sample.setup_result "amd64" sample.ctx_existing ["amd64"; "arm64"]) !! 1
       = Some image /\
     freebsd.image_env image !! "CGO_LDFLAGS" = Some "-existing -fuse-ld=lld") /\
  (exists image,
     freebsd.Images (sample.setup_result "amd64" sample.ctx_existing ["amd64"; "arm64"]) !! 0
       = Some image /\
     freebsd.image_env image !! "CGO_LDFLAGS" = None).
Proof.
  assert (Hrun : sample.setup "amd64" sample.ctx_existing ["amd64"; "arm64"] =
                 freebsd.Returned
                   (sample.setup_result "amd64" sample.ctx_existing ["amd64"; "arm64"], None))
    by reflexivity.
  destruct (setupContainerImages_lld_rule "amd64" unit (list freebsd.Architecture)
              sample.target_arch_from_flag (sample.make_context sample.ctx_existing)
              sample.new_engine sample.no_override _ _ _ _ Hrun)
    as (archs & new & Harchs & Himages & HF).
  cbv in Harchs. injection Harchs as <-.
  assert (Hnew : new = freebsd.Images
                      (sample.setup_result "amd64" sample.ctx_existing ["amd64"; "arm64"]))
    by (symmetry; exact Himages).
  subst new.
  split.
  - destruct (Forall2_lookup_l _ _ _ 1 _ HF eq_refl) as (image & Hlookup & Hyes & _).
    exists image. split; [exact Hlookup|]. rewrite Hyes by (left; reflexivity). reflexivity.
  - destruct (Forall2_lookup_l _ _ _ 0 _ HF eq_refl) as (image & Hlookup & _ & Hno).
    exists image. split; [exact Hlookup|]. rewrite Hno; [reflexivity|].
    intros [H | [H _]]; discriminate H.
Defined.

(** The claim fails where host and target are both arm64: the flag is
    added although the host does not differ from arm64 and the target is
    not amd64. *)
Lemma lld_rule_counterexample :
  exists image,
    sample.setup "arm64" sample.ctx_plain ["arm64"]
      = freebsd.Returned
          ({| freebsd.Images := [image]; freebsd.defaultContext := sample.ctx_plain |}, None) /\
    freebsd.image_env image !! "CGO_LDFLAGS" = Some "-fuse-ld=lld" /\
    freebsd.image_env (sample.create_image "arm64" "freebsd" freebsd.freebsdImageArm64)
      !! "CGO_LDFLAGS" = None /\
    ~ (("arm64" <> "arm64" /\ "arm64" = "arm64") \/ ("arm64" = "arm64" /\ "arm64" = "amd64")).
Proof.
  eexists. split; [reflexivity|]. split; [reflexivity|]. split; [reflexivity|].
  intros [[H _] | [_ H]]; [now apply H | discriminate H].
Qed.

(** A run on an arm64 host for arm64, with ["-existing"] in the shared
    context: the arm64 image has the flag after the existing value. *)
Lemma setupContainerImages_arm64_lld_witness :
  exists image,
    freebsd.Images (sample.setup_result "arm64" sample.ctx_existing ["arm64"]) !! 0
      = Some image /\
    freebsd.image_env image !! "CGO_LDFLAGS" = Some "-existing -fuse-ld=lld".
Proof.
  assert (Hrun : sample.setup "arm64" sample.ctx_existing ["arm64"] =
                 freebsd.Returned
                   (sample.setup_result "arm64" sample.ctx_existing ["arm64"], None))
    by reflexivity.
  destruct (setupContainerImages_arm64_lld "arm64" unit (list freebsd.Architecture)
              sample.target_arch_from_flag (sample.make_context sample.ctx_existing)
              sample.new_engine sample.no_override _ _ _ _ ["arm64"] Hrun eq_refl 0 eq_refl)
    as (image & v & Hlookup & Henv & _ & Hv).
  exists image. split; [exact Hlookup|]. rewrite Henv, Hv. reflexivity.
Defined.

(** ** Container-side paths *)

Section path_properties.
Import freebsd.

Lemma JoinPathContainer_2 (a b : string) :
  JoinPathContainer [a; b] = a +:+ "/" +:+ b.
Proof. reflexivity. Qed.

Lemma JoinPathContainer_3 (a b c : string) :
  JoinPathContainer [a; b; c] = a +:+ "/" +:+ b +:+ "/" +:+ c.
Proof. reflexivity. Qed.

Lemma append_inv_head (s t u : string) : s +:+ t = s +:+ u -> t = u.
Proof.
  induction s as [|c s' IH]; [trivial|].
  rewrite !append_cons. intros H. injection H as H. now apply IH.
Qed.

(** Two images get the same path under the temp dir only when they have
    the same identity token. *)
Lemma relocatePath_inj cmd image1 image2 :
  relocatePath cmd image1 = relocatePath cmd image2 -> ID image1 = ID image2.
Proof.
  unfold relocatePath. rewrite !JoinPathContainer_3. intros H.
  apply append_inv_head, append_inv_head in H.
  now apply append_inv_tail in H.
Qed.

(** Two images get the same directory under the bin dir only when they
    have the same identity token. *)
Lemma extractDir_inj cmd image1 image2 :
  extractDir cmd image1 = extractDir cmd image2 -> ID image1 = ID image2.
Proof.
  unfold extractDir. rewrite !JoinPathContainer_2. intros H.
  now apply append_inv_head, append_inv_head in H.
Qed.

Lemma HasPrefix_append (a s prefix : string) :
  HasPrefix (a +:+ s) (a +:+ prefix) = HasPrefix s prefix.
Proof.
  induction a as [|c a' IH]; [reflexivity|].
  rewrite !append_cons. simpl. now rewrite Ascii.eqb_refl.
Qed.

Lemma HasPrefix_cons (c p : ascii) (s prefix : string) :
  HasPrefix (String c s) (String p prefix) =
  if Ascii.eqb p c then HasPrefix s prefix else false.
Proof. reflexivity. Qed.

Lemma Contains_cons (c : ascii) (s substr : string) :
  Contains (String c s) substr = HasPrefix (String c s) substr || Contains s substr.
Proof. reflexivity. Qed.

Lemma Contains_cons_false (c : ascii) (s substr : string) :
  Contains (String c s) substr = false -> Contains s substr = false.
Proof. rewrite Contains_cons. intros H. now apply orb_false_iff in H. Qed.

(** A token that starts with the separator contains it. *)
Lemma Contains_separator_head (s : string) : Contains (String "/" s) "/" = true.
Proof. reflexivity. Qed.

(** A token without a separator, followed by a separator, is a prefix of
    another such token followed by a separator only when the tokens are
    equal. *)
Lemma token_prefix_eq (id1 id2 : string) :
  Contains id1 "/" = false -> Contains id2 "/" = false ->
  HasPrefix (id2 +:+ "/") (id1 +:+ "/") = true -> id1 = id2.
Proof.
  revert id2. induction id1 as [|c id1' IH]; intros [|d id2'] H1 H2 Hp.
  - reflexivity.
  - rewrite append_cons in Hp. change ("" +:+ "/") with "/" in Hp.
    rewrite HasPrefix_cons in Hp.
    destruct (Ascii.eqb_spec "/"%char d) as [<- | Hne]; [|discriminate Hp].
    rewrite Contains_separator_head in H2. discriminate H2.
  - rewrite append_cons in Hp. change ("" +:+ "/") with "/" in Hp.
    rewrite HasPrefix_cons in Hp.
    destruct (Ascii.eqb c "/"); [|discriminate Hp].
    destruct id1' as [|c' id1'']; [discriminate Hp|].
    rewrite append_cons in Hp. discriminate Hp.
  - rewrite !append_cons, HasPrefix_cons in Hp.
    destruct (Ascii.eqb_spec c d) as [-> | Hne]; [|discriminate Hp].
    f_equal. apply IH; [eapply Contains_cons_false; eassumption
                       | eapply Contains_cons_false; eassumption | exact Hp].
Qed.

(** With identity tokens that hold no separator, the directory of one
    image under a root is not inside the directory of another. *)
Lemma image_dirs_not_nested (root id1 id2 : string) :
  id1 <> id2 ->
  Contains id1 "/" = false -> Contains id2 "/" = false ->
  HasPrefix (JoinPathContainer [root; id2] +:+ "/")
            (JoinPathContainer [root; id1] +:+ "/") = false.
Proof.
  intros Hne H1 H2. rewrite !JoinPathContainer_2, !append_assoc.
  rewrite HasPrefix_append.
  change ("/" +:+ id2 +:+ "/") with ("/" +:+ (id2 +:+ "/")).
  change ("/" +:+ id1 +:+ "/") with ("/" +:+ (id1 +:+ "/")).
  rewrite HasPrefix_append.
  destruct (HasPrefix (id2 +:+ "/") (id1 +:+ "/")) eqn:Hp; [|reflexivity].
  exfalso. apply Hne. now apply token_prefix_eq.
Qed.

End path_properties.

(** ** Build *)

Section build_properties.
Import freebsd.

Variable World : Type.
Variable respond : call -> World -> option error * World.

Local Abbreviation machine := (freebsd.machine World).
Local Abbreviation Build := (freebsd.Build World respond).
Local Abbreviation calls_made := (freebsd.calls_made World).

(** The packaging call [Build] makes: release or debug packaging, chosen by
    the context's [Release] flag. *)
Local Abbreviation package_call cmd image :=
  (if Release (defaultContext cmd)
   then call_fyneRelease (defaultContext cmd) image
   else call_fynePackage (defaultContext cmd) image).

Local Abbreviation relocate_call cmd image :=
  (call_Run image (Volume_ (defaultContext cmd)) no_options (relocateArgs cmd image)).

Local Abbreviation extract_call cmd image :=
  (call_Run image (Volume_ (defaultContext cmd))
     {| WorkDir := extractDir cmd image |} (extractArgs cmd image)).

Lemma drop_length_app (l k : list call) : drop (length l) (l ++ k) = k.
Proof. induction l as [|x l IH]; [reflexivity | exact IH]. Qed.

(** [Build] when the icon cannot be prepared. *)
Lemma Build_run_prepare_fails cmd image (m : machine) err w :
  respond (call_prepareIcon (defaultContext cmd) image) (world _ m) = (Some err, w) ->
  Build cmd image m =
    (("", Some err),
     {| world := w;
        trace := trace _ m ++ [call_prepareIcon (defaultContext cmd) image] |}).
Proof.
  intros H1. unfold freebsd.Build, bind, prepareIcon, invoke. now rewrite H1.
Qed.

(** [Build] when packaging fails. *)
Lemma Build_run_package_fails cmd image (m : machine) w1 err w2 :
  respond (call_prepareIcon (defaultContext cmd) image) (world _ m) = (None, w1) ->
  respond (package_call cmd image) w1 = (Some err, w2) ->
  Build cmd image m =
    (("", Some (Errorf "could not package the Fyne app: " (Error err))),
     {| world := w2;
        trace := trace _ m ++ [call_prepareIcon (defaultContext cmd) image;
                               package_call cmd image] |}).
Proof.
  intros H1 H2. unfold freebsd.Build, bind, prepareIcon, invoke. rewrite H1.
  unfold fyneRelease, fynePackage, invoke.
  destruct (Release (defaultContext cmd)); simpl; rewrite H2; simpl;
    now rewrite <- app_assoc.
Qed.

(** [Build] when preparation and packaging succeed: both [image.Run] calls
    are made and their results do not reach the caller. *)
Lemma Build_run_packaged cmd image (m : machine) w1 w2 :
  respond (call_prepareIcon (defaultContext cmd) image) (world _ m) = (None, w1) ->
  respond (package_call cmd image) w1 = (None, w2) ->
  Build cmd image m =
    ((packageName cmd, None),
     {| world := (respond (extract_call cmd image)
                    (respond (relocate_call cmd image) w2).2).2;
        trace := trace _ m ++ [call_prepareIcon (defaultContext cmd) image;
                               package_call cmd image;
                               relocate_call cmd image;
                               extract_call cmd image] |}).
Proof.
  intros H1 H2. unfold freebsd.Build, bind, prepareIcon, invoke. rewrite H1.
  unfold fyneRelease, fynePackage, Run, invoke.
  destruct (Release (defaultContext cmd)); simpl; rewrite H2; simpl;
    destruct (respond (relocate_call cmd image) w2) as [e3 w3]; simpl;
    destruct (respond (extract_call cmd image) w3) as [e4 w4]; simpl;
    now rewrite <- !app_assoc.
Qed.

(** The three ways a [Build] can go, by the first failing phase. *)
Lemma Build_cases cmd image (m : machine) :
  (exists err,
     (Build cmd image m).1 = ("", Some err) /\
     calls_made (Build cmd image) m = [call_prepareIcon (defaultContext cmd) image]) \/
  (exists err,
     (Build cmd image m).1 =
       ("", Some (Errorf "could not package the Fyne app: " (Error err))) /\
     calls_made (Build cmd image) m =
       [call_prepareIcon (defaultContext cmd) image; package_call cmd image]) \/
  ((Build cmd image m).1 = (packageName cmd, None) /\
   calls_made (Build cmd image) m =
     [call_prepareIcon (defaultContext cmd) image; package_call cmd image;
      relocate_call cmd image; extract_call cmd image]).
Proof.
  unfold freebsd.calls_made.
  destruct (respond (call_prepareIcon (defaultContext cmd) image) (world _ m))
    as [[err|] w1] eqn:H1.
  { left. exists err. rewrite (Build_run_prepare_fails _ _ _ _ _ H1). simpl.
    now rewrite drop_length_app. }
  destruct (respond (package_call cmd image) w1) as [[err|] w2] eqn:H2.
  { right; left. exists err. rewrite (Build_run_package_fails _ _ _ _ _ _ H1 H2). simpl.
    now rewrite drop_length_app. }
  right; right. rewrite (Build_run_packaged _ _ _ _ _ H1 H2). simpl.
  now rewrite drop_length_app.
Qed.

(** C5. When [prepareIcon] fails, [Build] returns that very error together
    with the empty artifact name, and the only call it makes is
    [prepareIcon]: neither packaging procedure and no [image.Run] is
    invoked. *)
Theorem Build_prepare_failure cmd image (m : machine) err w :
  respond (call_prepareIcon (defaultContext cmd) image) (world _ m) = (Some err, w) ->
  (Build cmd image m).1 = ("", Some err) /\
  calls_made (Build cmd image) m = [call_prepareIcon (defaultContext cmd) image] /\
  Forall (fun c => in_container c = false) (calls_made (Build cmd image) m).
Proof.
  intros H1. unfold freebsd.calls_made.
  rewrite (Build_run_prepare_fails _ _ _ _ _ H1). simpl.
  rewrite drop_length_app. repeat constructor.
Qed.

(** C6. When the icon is prepared and the packaging call fails
    ([fyneRelease] if the context's [Release] flag is set, [fynePackage]
    otherwise), [Build] returns the empty artifact name and a new error
    whose text is "could not package the Fyne app: " followed by the text of
    the underlying error; the calls made are [prepareIcon] and the packaging
    call, and no [image.Run] (neither the [mv] nor the [tar]). *)
Theorem Build_package_failure cmd image (m : machine) w1 err w2 :
  respond (call_prepareIcon (defaultContext cmd) image) (world _ m) = (None, w1) ->
  respond (if Release (defaultContext cmd)
           then call_fyneRelease (defaultContext cmd) image
           else call_fynePackage (defaultContext cmd) image) w1 = (Some err, w2) ->
  (Build cmd image m).1 =
    ("", Some (errorString ("could not package the Fyne app: " +:+ Error err))) /\
  calls_made (Build cmd image) m =
    [call_prepareIcon (defaultContext cmd) image;
     if Release (defaultContext cmd)
     then call_fyneRelease (defaultContext cmd) image
     else call_fynePackage (defaultContext cmd) image] /\
  Forall (fun c => is_Run c = false) (calls_made (Build cmd image) m).
Proof.
  intros H1 H2. unfold freebsd.calls_made.
  rewrite (Build_run_package_fails _ _ _ _ _ _ H1 H2). simpl.
  rewrite drop_length_app. split; [reflexivity|]. split; [reflexivity|].
  destruct (Release (defaultContext cmd)); repeat constructor.
Qed.

(** C7. Whenever [Build] returns without error, the artifact name is the
    context's [Name] followed by ".tar.xz"; the image does not enter it. *)
Theorem Build_artifact_name cmd image (m : machine) name :
  (Build cmd image m).1 = (name, None) ->
  name = Name (defaultContext cmd) +:+ ".tar.xz".
Proof.
  intros H.
  destruct (Build_cases cmd image m) as [(err & Hr & _) | [(err & Hr & _) | (Hr & _)]];
    rewrite Hr in H.
  - discriminate H.
  - discriminate H.
  - injection H as <-. reflexivity.
Qed.

(** Once packaging has succeeded, [Build] reports success whatever the two
    [image.Run] calls return. *)
Lemma Build_after_packaging cmd image (m : machine) w1 w2 :
  respond (call_prepareIcon (defaultContext cmd) image) (world _ m) = (None, w1) ->
  respond (package_call cmd image) w1 = (None, w2) ->
  (Build cmd image m).1 = (Name (defaultContext cmd) +:+ ".tar.xz", None) /\
  calls_made (Build cmd image) m =
    [call_prepareIcon (defaultContext cmd) image; package_call cmd image;
     relocate_call cmd image; extract_call cmd image].
Proof.
  intros H1 H2. unfold freebsd.calls_made.
  rewrite (Build_run_packaged _ _ _ _ _ H1 H2). simpl.
  now rewrite drop_length_app.
Qed.

(** The only [mv] destination among the calls of a [Build] is the
    image's path under the temp dir. *)
Lemma Build_mv_destination cmd image (m : machine) c d :
  c ∈ calls_made (Build cmd image) m ->
  mv_destination c = Some d ->
  d = relocatePath cmd image.
Proof.
  intros Hc Hd.
  destruct (Build_cases cmd image m) as [(err & _ & Hcalls) | [(err & _ & Hcalls) | (_ & Hcalls)]];
    rewrite Hcalls in Hc; clear Hcalls;
    repeat (apply elem_of_cons in Hc; destruct Hc as [-> | Hc]);
    try (apply elem_of_nil in Hc; contradiction);
    try discriminate Hd;
    try (destruct (Release (defaultContext cmd)); discriminate Hd).
  simpl in Hd. now injection Hd as <-.
Qed.

(** The only [tar] working directory among the calls of a [Build] is the
    image's directory under the bin dir. *)
Lemma Build_tar_directory cmd image (m : machine) c d :
  c ∈ calls_made (Build cmd image) m ->
  tar_directory c = Some d ->
  d = extractDir cmd image.
Proof.
  intros Hc Hd.
  destruct (Build_cases cmd image m) as [(err & _ & Hcalls) | [(err & _ & Hcalls) | (_ & Hcalls)]];
    rewrite Hcalls in Hc; clear Hcalls;
    repeat (apply elem_of_cons in Hc; destruct Hc as [-> | Hc]);
    try (apply elem_of_nil in Hc; contradiction);
    try discriminate Hd;
    try (destruct (Release (defaultContext cmd)); discriminate Hd).
  simpl in Hd. now injection Hd as <-.
Qed.

(** For two images with distinct identity tokens, whatever the tokens are
    and whatever the two runs of [Build] do, no [mv] of one run has the
    destination of an [mv] of the other, and no [tar] of one run has the
    working directory of a [tar] of the other: the paths are different
    strings. *)
Lemma Build_paths_distinct cmd image1 image2 (m1 m2 : machine) c1 c2 :
  ID image1 <> ID image2 ->
  c1 ∈ calls_made (Build cmd image1) m1 ->
  c2 ∈ calls_made (Build cmd image2) m2 ->
  (forall d1 d2, mv_destination c1 = Some d1 -> mv_destination c2 = Some d2 -> d1 <> d2) /\
  (forall d1 d2, tar_directory c1 = Some d1 -> tar_directory c2 = Some d2 -> d1 <> d2).
Proof.
  intros Hne Hc1 Hc2. split; intros d1 d2 Hd1 Hd2 Heq; apply Hne.
  - apply (Build_mv_destination _ _ _ _ _ Hc1) in Hd1.
    apply (Build_mv_destination _ _ _ _ _ Hc2) in Hd2.
    subst d1 d2. now apply relocatePath_inj in Heq.
  - apply (Build_tar_directory _ _ _ _ _ Hc1) in Hd1.
    apply (Build_tar_directory _ _ _ _ _ Hc2) in Hd2.
    subst d1 d2. now apply extractDir_inj in Heq.
Qed.

End build_properties.

(** A build whose icon cannot be prepared. *)
Lemma Build_prepare_failure_witness :
  (freebsd.Build unit sample.icon_fails sample.cmd_plain sample.image_amd64 sample.start).1
    = ("", Some (otherError "*fs.PathError" "open Icon.png: no such file")) /\
  freebsd.calls_made unit
    (freebsd.Build unit sample.icon_fails sample.cmd_plain sample.image_amd64) sample.start
    = [freebsd.call_prepareIcon sample.ctx_plain sample.image_amd64] /\
  Forall (fun c => freebsd.in_container c = false)
    (freebsd.calls_made unit
       (freebsd.Build unit sample.icon_fails sample.cmd_plain sample.image_amd64)
       sample.start).
Proof.
  exact (Build_prepare_failure unit sample.icon_fails sample.cmd_plain sample.image_amd64
           sample.start (otherError "*fs.PathError" "open Icon.png: no such file") tt eq_refl).
Defined.

(** Builds whose packaging fails, in build mode and in release mode. *)
Lemma Build_package_failure_witness :
  ((freebsd.Build unit sample.package_fails sample.cmd_plain sample.image_amd64 sample.start).1
     = ("", Some (errorString "could not package the Fyne app: exit status 1")) /\
   freebsd.calls_made unit
     (freebsd.Build unit sample.package_fails sample.cmd_plain sample.image_amd64) sample.start
     = [freebsd.call_prepareIcon sample.ctx_plain sample.image_amd64;
        freebsd.call_fynePackage sample.ctx_plain sample.image_amd64]) /\
  ((freebsd.Build unit sample.package_fails sample.cmd_release sample.image_arm64 sample.start).1
     = ("", Some (errorString "could not package the Fyne app: exit status 1")) /\
   freebsd.calls_made unit
     (freebsd.Build unit sample.package_fails sample.cmd_release sample.image_arm64) sample.start
     = [freebsd.call_prepareIcon sample.ctx_release sample.image_arm64;
        freebsd.call_fyneRelease sample.ctx_release sample.image_arm64]).
Proof.
  split.
  - destruct (Build_package_failure unit sample.package_fails sample.cmd_plain
                sample.image_amd64 sample.start tt sample.exit_status_1 tt eq_refl eq_refl)
      as (Hresult & Hcalls & _).
    split; [exact Hresult | exact Hcalls].
  - destruct (Build_package_failure unit sample.package_fails sample.cmd_release
                sample.image_arm64 sample.start tt sample.exit_status_1 tt eq_refl eq_refl)
      as (Hresult & Hcalls & _).
    split; [exact Hresult | exact Hcalls].
Defined.

(** Successful builds of the two images of one application. *)
Lemma Build_artifact_name_witness :
  (freebsd.Build unit sample.all_succeed sample.cmd_plain sample.image_amd64 sample.start).1
    = ("demo.tar.xz", None) /\
  (freebsd.Build unit sample.all_succeed sample.cmd_plain sample.image_arm64 sample.start).1
    = ("demo.tar.xz", None) /\
  "demo.tar.xz" = freebsd.Name (freebsd.defaultContext sample.cmd_plain) +:+ ".tar.xz".
Proof.
  split; [reflexivity|]. split; [reflexivity|].
  exact (Build_artifact_name unit sample.all_succeed sample.cmd_plain sample.image_arm64
           sample.start "demo.tar.xz" eq_refl).
Defined.

(** C1, at a failing input. Both in-container commands fail with exit
    status 1 after a successful packaging, all four calls are made, and
    [Build] still returns the artifact name with a nil error. *)
Theorem Build_Run_failure_unreported :
  sample.run_fails
    (freebsd.call_Run sample.image_amd64 sample.ctx_volume freebsd.no_options
       (freebsd.relocateArgs sample.cmd_plain sample.image_amd64)) tt
    = (Some sample.exit_status_1, tt) /\
  sample.run_fails
    (freebsd.call_Run sample.image_amd64 sample.ctx_volume
       {| freebsd.WorkDir := freebsd.extractDir sample.cmd_plain sample.image_amd64 |}
       (freebsd.extractArgs sample.cmd_plain sample.image_amd64)) tt
    = (Some sample.exit_status_1, tt) /\
  (freebsd.Build unit sample.run_fails sample.cmd_plain sample.image_amd64 sample.start).1
    = ("demo.tar.xz", None) /\
  freebsd.calls_made unit
    (freebsd.Build unit sample.run_fails sample.cmd_plain sample.image_amd64) sample.start
    = [freebsd.call_prepareIcon sample.ctx_plain sample.image_amd64;
       freebsd.call_fynePackage sample.ctx_plain sample.image_amd64;
       freebsd.call_Run sample.image_amd64 sample.ctx_volume freebsd.no_options
         ["mv"; "/app/demo.tar.xz"; "/app/fyne-cross/tmp/freebsd-amd64/demo.tar.xz"];
       freebsd.call_Run sample.image_amd64 sample.ctx_volume
         {| freebsd.WorkDir := "/app/fyne-cross/bin/freebsd-amd64" |}
         ["tar"; "-xf"; "/app/fyne-cross/tmp/freebsd-amd64/demo.tar.xz";
          "--strip-components=3"; "usr/local/bin"]].
Proof.
  split; [reflexivity|]. split; [reflexivity|].
  exact (Build_after_packaging unit sample.run_fails sample.cmd_plain sample.image_amd64
           sample.start tt tt eq_refl eq_refl).
Qed.

(** The bin-dir directories of "freebsd-amd64" and "freebsd-arm64" are not
    nested in one another. *)
Example freebsd_dirs_not_nested :
  HasPrefix (freebsd.extractDir sample.cmd_plain sample.image_arm64 +:+ "/")
            (freebsd.extractDir sample.cmd_plain sample.image_amd64 +:+ "/") = false /\
  HasPrefix (freebsd.extractDir sample.cmd_plain sample.image_amd64 +:+ "/")
            (freebsd.extractDir sample.cmd_plain sample.image_arm64 +:+ "/") = false.
Proof.
  split; apply image_dirs_not_nested; (discriminate || reflexivity).
Qed.

(** ** More on the engine resolver *)

Section engine_resolution.
Import engine.

Variable LookPath : string -> string * option error.
Variable Output : string -> list string -> string * option error.
Variable ToLower : string -> string.
Variable checkKubernetesClient : option error.

Local Abbreviation MakeEngine :=
  (engine.MakeEngine LookPath Output ToLower checkKubernetesClient).

Local Abbreviation fixed_path := "/usr/bin/docker"%string.

(** X1. Every token other than "docker", "podman", the empty string and
    "kubernetes" is refused with the zero Engine and the error "unsupported
    container engine", whatever the host has installed; the tokens are
    compared exactly, so "Docker" is refused too. *)
Theorem MakeEngine_unsupported_token (e : string) :
  e <> "docker" -> e <> "podman" -> e <> "" -> e <> "kubernetes" ->
  MakeEngine e = (zero, Some (errorString "unsupported container engine")).
Proof.
  intros Hd Hp Ha Hk.
  exact (MakeEngine_unsupported LookPath Output ToLower checkKubernetesClient e Hd Hp Ha Hk).
Qed.

(** X2. For the request "kubernetes" the error of the cluster client check
    is handed back as it is (not replaced by a message of the resolver, as
    a failed lookup of docker or podman is), with the zero Engine; without
    an error the Engine is kubernetes with an empty Binary. *)
Theorem MakeEngine_cluster (eng : Engine) (err : option error) :
  MakeEngine "kubernetes" = (eng, err) ->
  err = checkKubernetesClient /\
  (err = None -> eng = {| Name := "kubernetes"; Binary := "" |}) /\
  (err <> None -> eng = zero).
Proof.
  rewrite MakeEngine_kubernetes_eq.
  destruct checkKubernetesClient as [e0|]; intros H; injection H as <- <-.
  - split; [reflexivity|]. split; [discriminate | reflexivity].
  - split; [reflexivity|]. split; [reflexivity | contradiction].
Qed.

(** X3. An Engine returned without error answers true to exactly one of
    [IsDocker], [IsPodman] and [IsKubernetes]; and unless autodetection was
    requested its name is the requested token. *)
Theorem MakeEngine_kind (e : string) (eng : Engine) :
  MakeEngine e = (eng, None) ->
  ((IsDocker eng = true /\ IsPodman eng = false /\ IsKubernetes eng = false) \/
   (IsDocker eng = false /\ IsPodman eng = true /\ IsKubernetes eng = false) \/
   (IsDocker eng = false /\ IsPodman eng = false /\ IsKubernetes eng = true)) /\
  (e <> "" -> String_ eng = e) /\
  (e = "" -> IsKubernetes eng = false).
Proof.
  intros H.
  destruct (MakeEngine_ok_inv LookPath Output ToLower checkKubernetesClient e eng H)
    as [(-> & path & _ & ->) | [(-> & path & _ & ->) |
        [(-> & Hname & _) | (-> & _ & ->)]]].
  - split; [left; auto|]. split; [reflexivity | discriminate].
  - split; [right; left; auto|]. split; [reflexivity | discriminate].
  - unfold IsDocker, IsPodman, IsKubernetes.
    destruct Hname as [-> | ->].
    + split; [left; auto|]. split; [contradiction | reflexivity].
    + split; [right; left; auto|]. split; [contradiction | reflexivity].
  - split; [right; right; auto|]. split; [reflexivity | discriminate].
Qed.


(** X5. An Engine found by autodetection is backed by the probe: the
    command at [/usr/bin/docker] ran without error, the Engine's name
    occurs in its lowercased output, the name is podman only when "docker"
    does not occur there, and the Binary is the probed path (also for
    podman). *)
Theorem MakeEngine_autodetect_sound (eng : Engine) :
  MakeEngine "" = (eng, None) ->
  exists out,
    Output fixed_path ["--version"] = (out, None) /\
    Contains (ToLower out) (Name eng) = true /\
    (Name eng = "podman" -> Contains (ToLower out) "docker" = false) /\
    Binary eng = fixed_path.
Proof.
  rewrite MakeEngine_empty_eq.
  destruct (Output fixed_path ["--version"]) as [out [e0|]]; [discriminate|].
  intros H. exists out. split; [reflexivity|].
  destruct (Contains (ToLower out) "docker") eqn:Hd.
  { injection H as <-. simpl. split; [exact Hd|]. split; [discriminate | reflexivity]. }
  destruct (Contains (ToLower out) "podman") eqn:Hp; [|discriminate H].
  injection H as <-. simpl. split; [exact Hp|]. split; [reflexivity | reflexivity].
Qed.

End engine_resolution.

(** Tokens that differ from the recognised ones only by case, or not at
    all alike, are refused. *)
Lemma MakeEngine_unsupported_token_witness :
  engine.MakeEngine sample.look_path (sample.version_probe "Docker version 24.0.5" None)
    ToLowerASCII None "Docker"
  = (engine.zero, Some (errorString "unsupported container engine")) /\
  engine.MakeEngine sample.look_path (sample.version_probe "Docker version 24.0.5" None)
    ToLowerASCII None "bogus"
  = (engine.zero, Some (errorString "unsupported container engine")).
Proof.
  split.
  - apply (MakeEngine_unsupported_token sample.look_path
             (sample.version_probe "Docker version 24.0.5" None) ToLowerASCII None "Docker");
      discriminate.
  - apply (MakeEngine_unsupported_token sample.look_path
             (sample.version_probe "Docker version 24.0.5" None) ToLowerASCII None "bogus");
      discriminate.
Defined.

(** The cluster backend with an unreachable and a reachable cluster. *)
Lemma MakeEngine_cluster_witness :
  ((engine.MakeEngine sample.look_path (sample.version_probe "" None) ToLowerASCII
      (Some sample.cluster_down) "kubernetes").2 = Some sample.cluster_down /\
   (engine.MakeEngine sample.look_path (sample.version_probe "" None) ToLowerASCII
      (Some sample.cluster_down) "kubernetes").1 = engine.zero) /\
  (engine.MakeEngine sample.look_path (sample.version_probe "" None) ToLowerASCII
     None "kubernetes").1 = {| engine.Name := "kubernetes"; engine.Binary := "" |}.
Proof.
  split.
  - destruct (MakeEngine_cluster sample.look_path (sample.version_probe "" None)
                ToLowerASCII (Some sample.cluster_down) _ _ eq_refl)
      as (Herr & _ & Hzero).
    split; [exact Herr | apply Hzero; discriminate].
  - destruct (MakeEngine_cluster sample.look_path (sample.version_probe "" None)
                ToLowerASCII None _ _ eq_refl)
      as (_ & Hok & _).
    apply Hok. reflexivity.
Defined.

(** The docker Engine found on the sample host. *)
Lemma MakeEngine_kind_witness :
  ((engine.IsDocker {| engine.Name := "docker"; engine.Binary := "/usr/local/bin/docker" |}
      = true /\
    engine.IsPodman {| engine.Name := "docker"; engine.Binary := "/usr/local/bin/docker" |}
      = false /\
    engine.IsKubernetes {| engine.Name := "docker"; engine.Binary := "/usr/local/bin/docker" |}
      = false) \/
   (engine.IsDocker {| engine.Name := "docker"; engine.Binary := "/usr/local/bin/docker" |}
      = false /\
    engine.IsPodman {| engine.Name := "docker"; engine.Binary := "/usr/local/bin/docker" |}
      = true /\
    engine.IsKubernetes {| engine.Name := "docker"; engine.Binary := "/usr/local/bin/docker" |}
      = false) \/
   (engine.IsDocker {| engine.Name := "docker"; engine.Binary := "/usr/local/bin/docker" |}
      = false /\
    engine.IsPodman {| engine.Name := "docker"; engine.Binary := "/usr/local/bin/docker" |}
      = false /\
    engine.IsKubernetes {| engine.Name := "docker"; engine.Binary := "/usr/local/bin/docker" |}
      = true)) /\
  ("docker" <> "" ->
   engine.String_ {| engine.Name := "docker"; engine.Binary := "/usr/local/bin/docker" |}
     = "docker") /\
  ("docker" = "" ->
   engine.IsKubernetes {| engine.Name := "docker"; engine.Binary := "/usr/local/bin/docker" |}
     = false).
Proof.
  exact (MakeEngine_kind sample.look_path (sample.version_probe "" None)
           ToLowerASCII None "docker" _ eq_refl).
Defined.

(** A podman that answers at the fixed path. *)
Lemma MakeEngine_autodetect_sound_witness :
  exists out,
    sample.version_probe "podman version 4.3.1" None "/usr/bin/docker" ["--version"]
      = (out, None) /\
    Contains (ToLowerASCII out) "podman" = true /\
    ("podman" = "podman" -> Contains (ToLowerASCII out) "docker" = false) /\
    "/usr/bin/docker" = "/usr/bin/docker".
Proof.
  exact (MakeEngine_autodetect_sound sample.look_path
           (sample.version_probe "podman version 4.3.1" None) ToLowerASCII None
           {| engine.Name := "podman"; engine.Binary := "/usr/bin/docker" |} eq_refl).
Defined.

(** ** More on setupContainerImages *)

Section setup_outcomes.
Import freebsd.

Variable GOARCH : string.
Variable CommonFlags : Type.
Variable targetArchFlag : Type.
Variable targetArchFromFlag :
  targetArchFlag -> list Architecture -> list Architecture * option error.
Variable makeDefaultContext : CommonFlags -> list string -> Context * option error.
Variable newContainerEngine :
  Context -> (Architecture -> string -> string -> containerImage) * option error.
Variable overrideDockerImage : CommonFlags -> string -> string.

Local Abbreviation flags_t := (freebsdFlags CommonFlags targetArchFlag).
Local Abbreviation setupImage :=
  (freebsd.setupImage GOARCH CommonFlags targetArchFlag overrideDockerImage).
Local Abbreviation setupImages :=
  (freebsd.setupImages GOARCH CommonFlags targetArchFlag overrideDockerImage).
Local Abbreviation setupContainerImages :=
  (freebsd.setupContainerImages GOARCH CommonFlags targetArchFlag
     targetArchFromFlag makeDefaultContext newContainerEngine overrideDockerImage).

(** The loop panics exactly when some architecture of the list is neither
    amd64 nor arm64. *)
Lemma setupImages_Panicked create (flags : flags_t) ctx archs images :
  setupImages create flags ctx archs images = Panicked <->
  Exists (fun arch => arch <> ArchAmd64 /\ arch <> ArchArm64) archs.
Proof.
  revert images. induction archs as [|arch archs IH]; intros images; simpl.
  - split; [discriminate | intros H; inversion H].
  - destruct (setupImage create flags ctx arch) as [image|] eqn:Himg.
    + rewrite IH. split; [intros H; now right|].
      intros H. inversion H as [? ? [Ha Hb] | ? ? Ht]; subst; [|exact Ht].
      assert (Hs : is_Some (setupImage create flags ctx arch)) by now exists image.
      apply setupImage_is_Some in Hs. destruct Hs; contradiction.
    + split; [|reflexivity]. intros _. left.
      split; intros Heq;
        (assert (Hs : is_Some (setupImage create flags ctx arch))
           by (apply setupImage_is_Some; auto));
        rewrite Himg in Hs; destruct Hs as [x Hx]; discriminate Hx.
Qed.

(** The environment of the image built for a supported architecture. *)
Lemma setupImage_env create (flags : flags_t) ctx arch image :
  setupImage create flags ctx arch = Some image ->
  exists triple reference,
    ((arch = ArchAmd64 /\ triple = "x86_64-unknown-freebsd12"
      /\ reference = freebsdImageAmd64) \/
     (arch = ArchArm64 /\ triple = "aarch64-unknown-freebsd12"
      /\ reference = freebsdImageArm64)) /\
    image_env image !! "GOOS" = Some "freebsd" /\
    image_env image !! "GOARCH" = Some arch /\
    image_env image !! "CC" = Some ("clang --sysroot=/freebsd --target=" +:+ triple) /\
    image_env image !! "CXX" = Some ("clang++ --sysroot=/freebsd --target=" +:+ triple) /\
    (forall key,
       key <> "GOOS" -> key <> "GOARCH" -> key <> "CC" -> key <> "CXX" ->
       key <> "CGO_LDFLAGS" ->
       image_env image !! key =
       image_env (create arch freebsdOS
                    (overrideDockerImage (CommonFlags_ _ _ flags) reference)) !! key).
Proof.
  unfold freebsd.setupImage.
  destruct (String.eqb_spec arch ArchAmd64) as [-> | Ha].
  { intros H. injection H as <-.
    exists "x86_64-unknown-freebsd12", freebsdImageAmd64.
    split; [left; auto|].
    destruct (String.eqb GOARCH ArchArm64).
    - split; [apply SetEnv_lookup_eq|].
      split; [now rewrite !SetEnv_lookup_ne by discriminate; apply SetEnv_lookup_eq|].
      split; [now rewrite !SetEnv_lookup_ne by discriminate; apply SetEnv_lookup_eq|].
      split; [now rewrite !SetEnv_lookup_ne by discriminate; apply SetEnv_lookup_eq|].
      intros key H1 H2 H3 H4 H5. now rewrite !SetEnv_lookup_ne by congruence.
    - split; [apply SetEnv_lookup_eq|].
      split; [now rewrite !SetEnv_lookup_ne by discriminate; apply SetEnv_lookup_eq|].
      split; [now rewrite !SetEnv_lookup_ne by discriminate; apply SetEnv_lookup_eq|].
      split; [now rewrite !SetEnv_lookup_ne by discriminate; apply SetEnv_lookup_eq|].
      intros key H1 H2 H3 H4 H5. now rewrite !SetEnv_lookup_ne by congruence. }
  destruct (String.eqb_spec arch ArchArm64) as [-> | Hb]; [|discriminate].
  intros H. injection H as <-.
  exists "aarch64-unknown-freebsd12", freebsdImageArm64.
  split; [right; auto|].
  split; [apply SetEnv_lookup_eq|].
  split; [now rewrite !SetEnv_lookup_ne by discriminate; apply SetEnv_lookup_eq|].
  split; [now rewrite !SetEnv_lookup_ne by discriminate; apply SetEnv_lookup_eq|].
  split; [now rewrite !SetEnv_lookup_ne by discriminate; apply SetEnv_lookup_eq|].
  intros key H1 H2 H3 H4 H5. now rewrite !SetEnv_lookup_ne by congruence.
Qed.

(** The image a run that returned without error built for a position of
    the target list. *)
Lemma setupContainerImages_image cmd (flags : flags_t) args cmd' archs i arch :
  setupContainerImages cmd flags args = Returned (cmd', None) ->
  targetArchFromFlag (TargetArch _ _ flags) freebsdArchSupported = (archs, None) ->
  archs !! i = Some arch ->
  exists image,
    Images cmd' !! (length (Images cmd) + i) = Some image /\
    setupImage (newContainerEngine (defaultContext cmd')).1 flags (defaultContext cmd') arch
      = Some image.
Proof.
  intros Hrun Harchs Hi.
  destruct (setupContainerImages_ok GOARCH CommonFlags targetArchFlag targetArchFromFlag
              makeDefaultContext newContainerEngine overrideDockerImage
              cmd flags args cmd' Hrun)
    as (archs' & create & new & Harchs' & _ & Hengine & Himages & HF).
  rewrite Harchs in Harchs'. injection Harchs' as <-.
  destruct (Forall2_lookup_l _ _ _ _ _ HF Hi) as (image & Hnew & Himg).
  exists image. rewrite Hengine. split; [|exact Himg].
  rewrite Himages, lookup_app_r by lia.
  replace (length (Images cmd) + i - length (Images cmd)) with i by lia.
  exact Hnew.
Qed.

(** X6. When [setupContainerImages] returns an error no image has been
    appended, and the error is one of three: the target-architecture error
    rewritten as "could not make build context for freebsd OS: " followed by
    its text, with the receiver untouched; the error of
    [makeDefaultContext] as it is, with the receiver untouched; or the
    error of [newContainerEngine] as it is, with the new context already
    stored in the receiver. *)
Theorem setupContainerImages_error cmd (flags : flags_t) args cmd' err :
  setupContainerImages cmd flags args = Returned (cmd', Some err) ->
  Images cmd' = Images cmd /\
  ((exists archs cause,
      targetArchFromFlag (TargetArch _ _ flags) freebsdArchSupported = (archs, Some cause) /\
      err = errorString ("could not make build context for freebsd OS: " +:+ Error cause) /\
      cmd' = cmd) \/
   (exists archs ctx,
      targetArchFromFlag (TargetArch _ _ flags) freebsdArchSupported = (archs, None) /\
      makeDefaultContext (CommonFlags_ _ _ flags) args = (ctx, Some err) /\
      cmd' = cmd) \/
   (exists archs ctx create,
      targetArchFromFlag (TargetArch _ _ flags) freebsdArchSupported = (archs, None) /\
      makeDefaultContext (CommonFlags_ _ _ flags) args = (ctx, None) /\
      newContainerEngine ctx = (create, Some err) /\
      defaultContext cmd' = ctx)).
Proof.
  unfold freebsd.setupContainerImages.
  destruct (targetArchFromFlag _ _) as [archs [cause|]].
  { intros H. injection H as <- <-. split; [reflexivity|]. left. now exists archs, cause. }
  destruct (makeDefaultContext _ _) as [ctx [e1|]].
  { intros H. injection H as <- <-. split; [reflexivity|]. right; left. now exists archs, ctx. }
  destruct (newContainerEngine ctx) as [create [e2|]] eqn:Hengine.
  { intros H. injection H as <- <-. split; [reflexivity|]. right; right.
    now exists archs, ctx, create. }
  simpl. destruct (freebsd.setupImages _ _ _ _ _ _ _ _ _); discriminate.
Qed.

(** X7. In a run that returned without error, the image built for each
    target architecture has GOOS set to "freebsd", GOARCH set to that
    architecture, and CC and CXX set to clang and clang++ with the FreeBSD
    sysroot and the target triple of the architecture (x86_64 for amd64,
    aarch64 for arm64). *)
Theorem setupContainerImages_toolchain cmd (flags : flags_t) args cmd' archs i arch :
  setupContainerImages cmd flags args = Returned (cmd', None) ->
  targetArchFromFlag (TargetArch _ _ flags) freebsdArchSupported = (archs, None) ->
  archs !! i = Some arch ->
  exists image,
    Images cmd' !! (length (Images cmd) + i) = Some image /\
    image_env image !! "GOOS" = Some "freebsd" /\
    image_env image !! "GOARCH" = Some arch /\
    ((arch = "amd64" /\
      image_env image !! "CC"
        = Some "clang --sysroot=/freebsd --target=x86_64-unknown-freebsd12" /\
      image_env image !! "CXX"
        = Some "clang++ --sysroot=/freebsd --target=x86_64-unknown-freebsd12") \/
     (arch = "arm64" /\
      image_env image !! "CC"
        = Some "clang --sysroot=/freebsd --target=aarch64-unknown-freebsd12" /\
      image_env image !! "CXX"
        = Some "clang++ --sysroot=/freebsd --target=aarch64-unknown-freebsd12")).
Proof.
  intros Hrun Harchs Hi.
  destruct (setupContainerImages_image _ _ _ _ _ _ _ Hrun Harchs Hi) as (image & Hlookup & Himg).
  exists image. split; [exact Hlookup|].
  destruct (setupImage_env _ _ _ _ _ Himg)
    as (triple & reference & Hcase & Hgoos & Hgoarch & Hcc & Hcxx & _).
  split; [exact Hgoos|]. split; [exact Hgoarch|].
  destruct Hcase as [(-> & -> & _) | (-> & -> & _)]; [left | right]; auto.
Qed.

(** The image built for a supported architecture is the factory's image
    for that architecture, with nothing but environment variables set. *)
Lemma setupImage_base create (flags : flags_t) ctx arch image :
  setupImage create flags ctx arch = Some image ->
  exists reference,
    ((arch = ArchAmd64 /\ reference = freebsdImageAmd64) \/
     (arch = ArchArm64 /\ reference = freebsdImageArm64)) /\
    image_os image
      = image_os (create arch freebsdOS
                    (overrideDockerImage (CommonFlags_ _ _ flags) reference)) /\
    image_arch image
      = image_arch (create arch freebsdOS
                      (overrideDockerImage (CommonFlags_ _ _ flags) reference)) /\
    DockerImage image
      = DockerImage (create arch freebsdOS
                       (overrideDockerImage (CommonFlags_ _ _ flags) reference)) /\
    ID image
      = ID (create arch freebsdOS
              (overrideDockerImage (CommonFlags_ _ _ flags) reference)).
Proof.
  unfold freebsd.setupImage.
  destruct (String.eqb_spec arch ArchAmd64) as [-> | Ha].
  { intros H. injection H as <-. exists freebsdImageAmd64.
    split; [left; auto|]. destruct (String.eqb GOARCH ArchArm64); auto. }
  destruct (String.eqb_spec arch ArchArm64) as [-> | Hb]; [|discriminate].
  intros H. injection H as <-. exists freebsdImageArm64.
  split; [right; auto|]. auto.
Qed.

(** X8. In a run that returned without error, the image built for a
    target architecture is the one the engine's factory made for that
    architecture, the OS "freebsd" and the (possibly overridden) default
    image reference of the architecture: it has the factory image's OS
    tag, architecture, image reference and identity token, and apart from
    GOOS, GOARCH, CC, CXX and CGO_LDFLAGS every variable of its environment
    is as the factory left it. *)
Theorem setupContainerImages_frame cmd (flags : flags_t) args cmd' archs i arch :
  setupContainerImages cmd flags args = Returned (cmd', None) ->
  targetArchFromFlag (TargetArch _ _ flags) freebsdArchSupported = (archs, None) ->
  archs !! i = Some arch ->
  exists image reference,
    Images cmd' !! (length (Images cmd) + i) = Some image /\
    ((arch = "amd64" /\ reference = freebsdImageAmd64) \/
     (arch = "arm64" /\ reference = freebsdImageArm64)) /\
    image_os image
      = image_os ((newContainerEngine (defaultContext cmd')).1 arch freebsdOS
                    (overrideDockerImage (CommonFlags_ _ _ flags) reference)) /\
    image_arch image
      = image_arch ((newContainerEngine (defaultContext cmd')).1 arch freebsdOS
                      (overrideDockerImage (CommonFlags_ _ _ flags) reference)) /\
    DockerImage image
      = DockerImage ((newContainerEngine (defaultContext cmd')).1 arch freebsdOS
                       (overrideDockerImage (CommonFlags_ _ _ flags) reference)) /\
    ID image
      = ID ((newContainerEngine (defaultContext cmd')).1 arch freebsdOS
              (overrideDockerImage (CommonFlags_ _ _ flags) reference)) /\
    forall key,
      key <> "GOOS" -> key <> "GOARCH" -> key <> "CC" -> key <> "CXX" ->
      key <> "CGO_LDFLAGS" ->
      image_env image !! key =
      image_env ((newContainerEngine (defaultContext cmd')).1 arch freebsdOS
                   (overrideDockerImage (CommonFlags_ _ _ flags) reference)) !! key.
Proof.
  intros Hrun Harchs Hi.
  destruct (setupContainerImages_image _ _ _ _ _ _ _ Hrun Harchs Hi) as (image & Hlookup & Himg).
  destruct (setupImage_env _ _ _ _ _ Himg)
    as (triple & reference & Hcase & _ & _ & _ & _ & Hframe).
  destruct (setupImage_base _ _ _ _ _ Himg)
    as (reference' & Hcase' & Hos & Harch & Hreference & Hid).
  assert (Href : reference' = reference).
  { destruct Hcase as [(-> & _ & ->) | (-> & _ & ->)];
      destruct Hcase' as [(Heq & ->) | (Heq & ->)];
      first [reflexivity | discriminate Heq]. }
  subst reference'.
  exists image, reference. split; [exact Hlookup|].
  split; [destruct Hcase as [(-> & _ & ->) | (-> & _ & ->)]; [left | right]; auto|].
  auto.
Qed.

(** X9. [setupContainerImages] panics (a method call on a nil image)
    exactly when the three collaborators succeed and the target list holds
    an architecture that is neither amd64 nor arm64; in every other case
    it returns. *)
Theorem setupContainerImages_panics cmd (flags : flags_t) args :
  setupContainerImages cmd flags args = Panicked <->
  exists archs ctx create,
    targetArchFromFlag (TargetArch _ _ flags) freebsdArchSupported = (archs, None) /\
    makeDefaultContext (CommonFlags_ _ _ flags) args = (ctx, None) /\
    newContainerEngine ctx = (create, None) /\
    Exists (fun arch => arch <> "amd64" /\ arch <> "arm64") archs.
Proof.
  unfold freebsd.setupContainerImages.
  destruct (targetArchFromFlag _ _) as [archs [cause|]].
  { split; [discriminate | intros (a & c & k & H & _); discriminate H]. }
  destruct (makeDefaultContext _ _) as [ctx [e1|]].
  { split; [discriminate | intros (a & c & k & _ & H & _); discriminate H]. }
  destruct (newContainerEngine ctx) as [create [e2|]] eqn:Hengine.
  { split; [discriminate|]. intros (a & c & k & _ & H & H' & _).
    injection H as <-. rewrite Hengine in H'. discriminate H'. }
  simpl.
  destruct (freebsd.setupImages _ _ _ _ _ _ _ _ _) as [images|] eqn:Hloop.
  - split; [discriminate|]. intros (a & c & k & Ha & Hc & Hk & Hex).
    injection Ha as <-. injection Hc as <-. rewrite Hengine in Hk. injection Hk as <-.
    apply (setupImages_Panicked create flags ctx archs (Images cmd)) in Hex.
    rewrite Hloop in Hex. discriminate Hex.
  - split; [|reflexivity]. intros _. exists archs, ctx, create.
    split; [reflexivity|]. split; [reflexivity|]. split; [exact Hengine|].
    now apply (setupImages_Panicked create flags ctx archs (Images cmd)).
Qed.

(** X10. A run that returned without error keeps the images the receiver
    already had, in front, and appends one image per entry of the target
    list, so that a second run appends again; with an empty target list
    [Images] is unchanged. The receiver's context is the one
    [makeDefaultContext] returned. *)
Theorem setupContainerImages_appends cmd (flags : flags_t) args cmd' archs :
  setupContainerImages cmd flags args = Returned (cmd', None) ->
  targetArchFromFlag (TargetArch _ _ flags) freebsdArchSupported = (archs, None) ->
  take (length (Images cmd)) (Images cmd') = Images cmd /\
  length (Images cmd') = length (Images cmd) + length archs /\
  (archs = [] -> Images cmd' = Images cmd) /\
  makeDefaultContext (CommonFlags_ _ _ flags) args = (defaultContext cmd', None).
Proof.
  intros Hrun Harchs.
  destruct (setupContainerImages_ok GOARCH CommonFlags targetArchFlag targetArchFromFlag
              makeDefaultContext newContainerEngine overrideDockerImage
              cmd flags args cmd' Hrun)
    as (archs' & create & new & Harchs' & Hctx & _ & Himages & HF).
  rewrite Harchs in Harchs'. injection Harchs' as <-.
  apply Forall2_length in HF.
  split; [now rewrite Himages, take_app_length|].
  split; [rewrite Himages, length_app; lia|].
  split; [|exact Hctx].
  intros ->. destruct new; [|discriminate HF]. now rewrite Himages, app_nil_r.
Qed.

End setup_outcomes.

(** A target architecture that the flag reader refuses. *)
Lemma setupContainerImages_error_witness :
  sample.setup "amd64" sample.ctx_existing ["386"]
  = freebsd.Returned
      ({| freebsd.Images := []; freebsd.defaultContext := sample.ctx_plain |},
       Some (errorString
               "could not make build context for freebsd OS: arch not supported")) /\
  freebsd.Images {| freebsd.Images := []; freebsd.defaultContext := sample.ctx_plain |}
  = [].
Proof.
  split; [reflexivity|].
  exact (proj1 (setupContainerImages_error "amd64" unit (list freebsd.Architecture)
                  sample.target_arch_from_flag (sample.make_context sample.ctx_existing)
                  sample.new_engine sample.no_override _ _ _ _ _
                  (eq_refl : sample.setup "amd64" sample.ctx_existing ["386"] = _))).
Defined.

(** The toolchain of the arm64 image of a run for amd64 and arm64. *)
Lemma setupContainerImages_toolchain_witness :
  exists image,
    freebsd.Images (sample.setup_result "amd64" sample.ctx_existing ["amd64"; "arm64"]) !! 1
      = Some image /\
    freebsd.image_env image !! "GOOS" = Some "freebsd" /\
    freebsd.image_env image !! "GOARCH" = Some "arm64" /\
    freebsd.image_env image !! "CC"
      = Some "clang --sysroot=/freebsd --target=aarch64-unknown-freebsd12" /\
    freebsd.image_env image !! "CXX"
      = Some "clang++ --sysroot=/freebsd --target=aarch64-unknown-freebsd12".
Proof.
  destruct (setupContainerImages_toolchain "amd64" unit (list freebsd.Architecture)
              sample.target_arch_from_flag (sample.make_context sample.ctx_existing)
              sample.new_engine sample.no_override _ _ _
              (sample.setup_result "amd64" sample.ctx_existing ["amd64"; "arm64"])
              ["amd64"; "arm64"] 1 "arm64"
              (eq_refl : sample.setup "amd64" sample.ctx_existing ["amd64"; "arm64"] = _)
              eq_refl eq_refl)
    as (image & Hlookup & Hgoos & Hgoarch & [(Harch & _) | (_ & Hcc & Hcxx)]).
  - discriminate Harch.
  - exists image. auto.
Defined.

(** The amd64 image of a run for amd64 and arm64 is the factory's: it has
    the factory's identity token and image reference, and a variable that
    the run does not write is absent, as in the factory's empty
    environment. *)
Lemma setupContainerImages_frame_witness :
  exists image,
    freebsd.Images (sample.setup_result "amd64" sample.ctx_existing ["amd64"; "arm64"]) !! 0
      = Some image /\
    freebsd.image_os image = "freebsd" /\
    freebsd.image_arch image = "amd64" /\
    freebsd.DockerImage image = "fyneio/fyne-cross-images:freebsd-amd64" /\
    freebsd.ID image = "freebsd-amd64" /\
    freebsd.image_env image !! "PATH" = None.
Proof.
  destruct (setupContainerImages_frame "amd64" unit (list freebsd.Architecture)
              sample.target_arch_from_flag (sample.make_context sample.ctx_existing)
              sample.new_engine sample.no_override _ _ _
              (sample.setup_result "amd64" sample.ctx_existing ["amd64"; "arm64"])
              ["amd64"; "arm64"] 0 "amd64"
              (eq_refl : sample.setup "amd64" sample.ctx_existing ["amd64"; "arm64"] = _)
              eq_refl eq_refl)
    as (image & reference & Hlookup & Hcase & Hos & Harch & Href & Hid & Hframe).
  destruct Hcase as [(_ & ->) | (Heq & _)]; [|discriminate Heq].
  exists image. split; [exact Hlookup|].
  split; [exact Hos|]. split; [exact Harch|]. split; [exact Href|]. split; [exact Hid|].
  rewrite Hframe by discriminate. reflexivity.
Defined.

(** An architecture outside the supported ones that reaches the loop. *)
Lemma setupContainerImages_panics_witness :
  sample.setup_unchecked "amd64" sample.ctx_plain ["arm64"; "386"] = freebsd.Panicked.
Proof.
  apply (proj2 (setupContainerImages_panics "amd64" unit (list freebsd.Architecture)
                  sample.accept_any_flag (sample.make_context sample.ctx_plain)
                  sample.new_engine sample.no_override _ _ _)).
  exists ["arm64"; "386"], sample.ctx_plain, sample.create_image.
  split; [reflexivity|]. split; [reflexivity|]. split; [reflexivity|].
  right. left. split; discriminate.
Defined.

(** Two images are appended for two target architectures. *)
Lemma setupContainerImages_appends_witness :
  length (freebsd.Images (sample.setup_result "amd64" sample.ctx_existing ["amd64"; "arm64"]))
  = 0 + 2.
Proof.
  exact (proj1 (proj2
           (setupContainerImages_appends "amd64" unit (list freebsd.Architecture)
              sample.target_arch_from_flag (sample.make_context sample.ctx_existing)
              sample.new_engine sample.no_override _ _ _
              (sample.setup_result "amd64" sample.ctx_existing ["amd64"; "arm64"])
              ["amd64"; "arm64"]
              (eq_refl : sample.setup "amd64" sample.ctx_existing ["amd64"; "arm64"] = _)
              eq_refl))).
Defined.

(** ** More on Build *)

Section build_order.
Import freebsd.

Variable World : Type.
Variable respond : call -> World -> option error * World.

Local Abbreviation machine := (freebsd.machine World).
Local Abbreviation Build := (freebsd.Build World respond).
Local Abbreviation calls_made := (freebsd.calls_made World).

Lemma packageName_not_empty cmd : packageName cmd <> "".
Proof.
  unfold packageName. intros H. apply (f_equal String.length) in H.
  rewrite length_append in H. simpl in H. lia.
Qed.

(** X11. The calls of a [Build] are always a beginning of the sequence
    prepareIcon, packaging, [mv], [tar]: no phase runs before the one in
    front of it, none runs twice, the packaging call is [fyneRelease] with
    the Release flag and [fynePackage] without it, never both. *)
Theorem Build_calls_in_order cmd image (m : machine) :
  exists rest,
    [call_prepareIcon (defaultContext cmd) image;
     if Release (defaultContext cmd)
     then call_fyneRelease (defaultContext cmd) image
     else call_fynePackage (defaultContext cmd) image;
     call_Run image (Volume_ (defaultContext cmd)) no_options (relocateArgs cmd image);
     call_Run image (Volume_ (defaultContext cmd))
       {| WorkDir := extractDir cmd image |} (extractArgs cmd image)]
    = calls_made (Build cmd image) m ++ rest.
Proof.
  destruct (Build_cases World respond cmd image m)
    as [(err & _ & ->) | [(err & _ & ->) | (_ & ->)]].
  - now eexists.
  - now eexists.
  - exists []. now rewrite app_nil_r.
Qed.

(** X12. [Build] returns a nil error exactly when it returns a non-empty
    artifact name, and exactly then it has run the two in-container
    commands; with an error it has run no [image.Run] at all. *)
Theorem Build_error_iff_empty_name cmd image (m : machine) :
  ((Build cmd image m).1.2 = None <-> (Build cmd image m).1.1 <> "") /\
  ((Build cmd image m).1.2 = None <->
   filter (fun c => is_Run c = true) (calls_made (Build cmd image) m)
   = [call_Run image (Volume_ (defaultContext cmd)) no_options (relocateArgs cmd image);
      call_Run image (Volume_ (defaultContext cmd))
        {| WorkDir := extractDir cmd image |} (extractArgs cmd image)]) /\
  ((Build cmd image m).1.2 <> None <->
   Forall (fun c => is_Run c = false) (calls_made (Build cmd image) m)).
Proof.
  destruct (Build_cases World respond cmd image m)
    as [(err & -> & ->) | [(err & -> & ->) | (-> & ->)]]; simpl.
  - split; [split; [discriminate | intros H; now contradiction H]|].
    split; [split; discriminate|].
    split; [intros _; repeat constructor | discriminate].
  - split; [split; [discriminate | intros H; now contradiction H]|].
    split; [split; [discriminate|]|].
    + destruct (Release (defaultContext cmd)); discriminate.
    + split; [intros _ | discriminate].
      destruct (Release (defaultContext cmd)); repeat constructor.
  - split; [split; [intros _; apply packageName_not_empty | reflexivity]|].
    split; [split; [intros _ | reflexivity]|].
    + destruct (Release (defaultContext cmd)); reflexivity.
    + split; [intros H; now contradiction H|].
      intros H. apply Forall_cons in H. destruct H as [_ H].
      apply Forall_cons in H. destruct H as [_ H].
      apply Forall_cons in H. destruct H as [Hrun _]. discriminate Hrun.
Qed.

(** X13. Every call of a [Build] is made for the image [Build] was given:
    no other image is prepared, packaged or run. *)
Theorem Build_calls_same_image cmd image (m : machine) :
  Forall (fun c => call_image c = image) (calls_made (Build cmd image) m).
Proof.
  destruct (Build_cases World respond cmd image m)
    as [(err & _ & ->) | [(err & _ & ->) | (_ & ->)]];
    destruct (Release (defaultContext cmd)); repeat constructor.
Qed.

(** X14. The archive a [Build] extracts is the file it has just moved:
    the archive argument of its [tar] is the destination of its [mv]. *)
Theorem Build_extracts_what_it_moved cmd image (m : machine) c1 c2 moved archive :
  c1 ∈ calls_made (Build cmd image) m ->
  c2 ∈ calls_made (Build cmd image) m ->
  mv_destination c1 = Some moved ->
  tar_archive c2 = Some archive ->
  archive = moved.
Proof.
  intros Hc1 Hc2 Hmv Htar.
  apply (Build_mv_destination World respond cmd image m c1 moved Hc1) in Hmv.
  subst moved.
  destruct (Build_cases World respond cmd image m)
    as [(err & _ & Hcalls) | [(err & _ & Hcalls) | (_ & Hcalls)]];
    rewrite Hcalls in Hc2; clear Hcalls Hc1;
    repeat (apply elem_of_cons in Hc2; destruct Hc2 as [-> | Hc2]);
    try (apply elem_of_nil in Hc2; contradiction);
    try discriminate Htar;
    try (destruct (Release (defaultContext cmd)); discriminate Htar).
  simpl in Htar. now injection Htar as <-.
Qed.

End build_order.

(** The archive extracted by a successful build of "freebsd-amd64". *)
Lemma Build_extracts_what_it_moved_witness :
  "/app/fyne-cross/tmp/freebsd-amd64/demo.tar.xz"
  = "/app/fyne-cross/tmp/freebsd-amd64/demo.tar.xz".
Proof.
  refine (Build_extracts_what_it_moved unit sample.all_succeed sample.cmd_plain
            sample.image_amd64 sample.start
            (freebsd.call_Run sample.image_amd64 sample.ctx_volume freebsd.no_options
               (freebsd.relocateArgs sample.cmd_plain sample.image_amd64))
            (freebsd.call_Run sample.image_amd64 sample.ctx_volume
               {| freebsd.WorkDir := freebsd.extractDir sample.cmd_plain sample.image_amd64 |}
               (freebsd.extractArgs sample.cmd_plain sample.image_amd64))
            _ _ _ _ eq_refl eq_refl).
  - apply list_elem_of_lookup. exists 2. reflexivity.
  - apply list_elem_of_lookup. exists 3. reflexivity.
Defined.

(** ** Overlap of container-side paths *)

Section path_overlap.
Import freebsd.












End path_overlap.

Section build_paths.
Import freebsd.

Variable World : Type.
Variable respond : call -> World -> option error * World.

Local Abbreviation machine := (freebsd.machine World).
Local Abbreviation Build := (freebsd.Build World respond).
Local Abbreviation calls_made := (freebsd.calls_made World).


End build_paths.


